(** * satcom-code: the encrypted satellite datastore

    A shallow embedding of [internal/datastore/filestore.go] (the session
    state, the load protocol and the save protocol), of the start-up hook
    and the data commands of [cmd/satcli/main.go] and of
    [types/satellite.go], with the properties the specification states about
    them and further properties read off the code.

    The package-level variables of the datastore become the record [Store];
    everything outside the process (environment, terminal, file system,
    random source) becomes the record [World], and every function threads
    both explicitly.  The mutex [dataFileLock] is not modelled: the
    embedding is sequential.  Diagnostics printed on stderr are left out. *)

From Stdlib Require Import Floats.
From stdpp Require Import gmap strings list fin_maps pretty.
From Stdlib.Strings Require Import Byte.

Open Scope string_scope.
Open Scope list_scope.
Open Scope stdpp_scope.

(** ** Go values *)

(** A Go [error] value: its message ([err.Error()]) and what
    [os.IsNotExist] answers on it. *)
Record goerr := { emsg : string; enotexist : bool }.

(** [fmt.Errorf]: the result is never recognised by [os.IsNotExist], which
    does not unwrap [%w]. *)
Definition Errorf (msg : string) : goerr := {| emsg := msg; enotexist := false |}.

Definition os_IsNotExist (e : goerr) : bool := enotexist e.

(** A Go pair [(value, error)]. *)
Inductive result (A : Type) : Type :=
| Ok (a : A)
| Err (e : goerr).
Arguments Ok {A} a.
Arguments Err {A} e.

(** What [%w] prints for an error operand, [nil] included. *)
Definition fmt_w (e : option goerr) : string :=
  match e with
  | Some e => emsg e
  | None => "%!w(<nil>)"
  end.

(** [strings.Contains]. *)
Fixpoint Contains (s substr : string) : bool :=
  if String.prefix substr s then true
  else match s with
       | EmptyString => false
       | String _ s' => Contains s' substr
       end.

(** ** types/satellite.go *)

Record Satellite := {
  Name : string;
  OrbitType : string;
  Altitude : float;
  Eccentricity : float;
  Inclination : float;
  PowerSystem : string;
  Communication : string;
  Size : float;
  Weight : float;
  Constellation : bool;
  RemoteSensing : string;
  LaunchDate : string;
  Operator : string;
  MissionObjective : string;
  Status : string
}.

(** ** internal/config and the libraries the datastore calls *)

(** The constants of [internal/config], which the datastore only names. *)
Record Config := {
  PassphraseEnvVar : string;
  DataFileName : string;
  Argon2SaltSize : nat;
  AESGCMNonceSize : nat
}.

(** The functions the datastore calls and does not define: the key
    derivation of [internal/crypto], the AEAD under [crypto.Encrypt] and
    [crypto.Decrypt], [encoding/json] on the collection, and [path/filepath]. *)
Class Externals := {
  config : Config;
  (** Modelled from the spec: [crypto.DeriveKeyWithArgon2id] is missing from
      the sources; "derive(passphrase, salt) -> key, deterministic for a
      given (passphrase, salt) pair", failing only on misconfiguration. *)
  DeriveKeyWithArgon2id : string → list byte → result (list byte);
  (** The authenticated cipher: key, nonce, payload. *)
  gcm_seal : list byte → list byte → list byte → result (list byte);
  gcm_open : list byte → list byte → list byte → result (list byte);
  json_MarshalIndent : gmap string Satellite → result (list byte);
  json_Unmarshal : list byte → result (gmap string Satellite);
  filepath_Dir : string → string;
  filepath_Join : string → string → string
}.

(** ** The world outside the process *)

Inductive Event :=
| EvStat (path : string)
| EvReadFile (path : string)
| EvWriteFile (path : string) (data : list byte)
| EvRename (oldpath newpath : string)
| EvRemove (path : string)
| EvRandRead (n : nat)
| EvDeriveKey (passphrase : string) (salt : list byte)
| EvEncrypt (plaintext key : list byte)
| EvDecrypt (data key : list byte).

Record World := {
  (** [os.Getenv(config.PassphraseEnvVar)] *)
  env_passphrase : string;
  (** [term.IsTerminal(int(os.Stdin.Fd()))] *)
  stdin_terminal : bool;
  (** what the successive calls of [term.ReadPassword] return *)
  tty : list (result string);
  (** [os.Executable()] *)
  executable : result string;
  (** the file system: an absent path does not exist, a path bound to an
      error exists and cannot be read *)
  files : gmap string (result (list byte));
  (** when set, [ioutil.WriteFile] fails with it and writes nothing *)
  write_fault : option goerr;
  (** when set, [os.Rename] fails with it and moves nothing *)
  rename_fault : option goerr;
  (** when set, [os.Remove] fails with it and removes nothing *)
  remove_fault : option goerr;
  (** the bytes [crypto/rand.Reader] still has to give *)
  rand_reader : list byte;
  (** the calls made so far, latest first *)
  trace : list Event
}.

Definition with_tty (t : list (result string)) (w : World) : World :=
  {| env_passphrase := env_passphrase w; stdin_terminal := stdin_terminal w;
     tty := t; executable := executable w; files := files w;
     write_fault := write_fault w; rename_fault := rename_fault w;
     remove_fault := remove_fault w;
     rand_reader := rand_reader w; trace := trace w |}.

Definition with_files (f : gmap string (result (list byte))) (w : World) : World :=
  {| env_passphrase := env_passphrase w; stdin_terminal := stdin_terminal w;
     tty := tty w; executable := executable w; files := f;
     write_fault := write_fault w; rename_fault := rename_fault w;
     remove_fault := remove_fault w;
     rand_reader := rand_reader w; trace := trace w |}.

Definition with_rand (r : list byte) (w : World) : World :=
  {| env_passphrase := env_passphrase w; stdin_terminal := stdin_terminal w;
     tty := tty w; executable := executable w; files := files w;
     write_fault := write_fault w; rename_fault := rename_fault w;
     remove_fault := remove_fault w;
     rand_reader := r; trace := trace w |}.

Definition log (ev : Event) (w : World) : World :=
  {| env_passphrase := env_passphrase w; stdin_terminal := stdin_terminal w;
     tty := tty w; executable := executable w; files := files w;
     write_fault := write_fault w; rename_fault := rename_fault w;
     remove_fault := remove_fault w;
     rand_reader := rand_reader w; trace := ev :: trace w |}.

Definition io_EOF : goerr := {| emsg := "EOF"; enotexist := false |}.
Definition io_ErrUnexpectedEOF : goerr := {| emsg := "unexpected EOF"; enotexist := false |}.

(** [term.ReadPassword]: the next line typed, [io.EOF] when none is left. *)
Definition term_ReadPassword (w : World) : result string * World :=
  match tty w with
  | [] => (Err io_EOF, w)
  | r :: rest => (r, with_tty rest w)
  end.

(** [os.Stat] followed by [!os.IsNotExist(statErr)]. *)
Definition os_Stat_exists (path : string) (w : World) : bool * World :=
  (bool_decide (is_Some (files w !! path)), log (EvStat path) w).

Definition ioutil_ReadFile (path : string) (w : World) : result (list byte) * World :=
  let w' := log (EvReadFile path) w in
  match files w !! path with
  | Some r => (r, w')
  | None =>
      (Err {| emsg := "open " +:+ path +:+ ": no such file or directory";
              enotexist := true |}, w')
  end.

Definition ioutil_WriteFile (path : string) (data : list byte) (w : World)
  : option goerr * World :=
  let w' := log (EvWriteFile path data) w in
  match write_fault w with
  | Some e => (Some e, w')
  | None => (None, with_files (<[path := Ok data]> (files w)) w')
  end.

Definition os_Rename (oldpath newpath : string) (w : World) : option goerr * World :=
  let w' := log (EvRename oldpath newpath) w in
  match rename_fault w with
  | Some e => (Some e, w')
  | None =>
      match files w !! oldpath with
      | Some c => (None, with_files (<[newpath := c]> (delete oldpath (files w))) w')
      | None =>
          (Some {| emsg := "rename " +:+ oldpath +:+ " " +:+ newpath
                           +:+ ": no such file or directory";
                   enotexist := true |}, w')
      end
  end.

(** [os.Remove]: it can fail, and then the path stays as it was. *)
Definition os_Remove (path : string) (w : World) : option goerr * World :=
  let w' := log (EvRemove path) w in
  match remove_fault w with
  | Some e => (Some e, w')
  | None =>
      match files w !! path with
      | Some _ => (None, with_files (delete path (files w)) w')
      | None =>
          (Some {| emsg := "remove " +:+ path +:+ ": no such file or directory";
                   enotexist := true |}, w')
      end
  end.

(** [io.ReadFull(rand.Reader, buf)] for a buffer of [n] bytes. *)
Definition rand_ReadFull (n : nat) (w : World) : result (list byte) * World :=
  let w' := log (EvRandRead n) w in
  if (n <=? length (rand_reader w))%nat then
    (Ok (take n (rand_reader w)), with_rand (drop n (rand_reader w)) w')
  else
    (Err (match rand_reader w with [] => io_EOF | _ => io_ErrUnexpectedEOF end),
     with_rand [] w').

(** ** internal/datastore/filestore.go *)

(** The package-level variables.  A nil map reads as the empty map and a nil
    slice as the empty slice, so they are not told apart. *)
Record Store := {
  satellitesData : gmap string Satellite;
  dataPath : string;
  passphraseProvided : bool;
  sessionKey : list byte
}.

Definition with_data (d : gmap string Satellite) (s : Store) : Store :=
  {| satellitesData := d; dataPath := dataPath s;
     passphraseProvided := passphraseProvided s; sessionKey := sessionKey s |}.

Definition with_path (p : string) (s : Store) : Store :=
  {| satellitesData := satellitesData s; dataPath := p;
     passphraseProvided := passphraseProvided s; sessionKey := sessionKey s |}.

Definition with_provided (b : bool) (s : Store) : Store :=
  {| satellitesData := satellitesData s; dataPath := dataPath s;
     passphraseProvided := b; sessionKey := sessionKey s |}.

Definition with_key (k : list byte) (s : Store) : Store :=
  {| satellitesData := satellitesData s; dataPath := dataPath s;
     passphraseProvided := passphraseProvided s; sessionKey := k |}.

(** [passphraseProvided = false; sessionKey = nil] *)
Definition lock (s : Store) : Store := with_key [] (with_provided false s).

Section Datastore.
Context `{ext : Externals}.

(** *** internal/crypto, as the datastore sees it *)

Definition crypto_DeriveKeyWithArgon2id (passphrase : string) (salt : list byte)
    (w : World) : result (list byte) * World :=
  (DeriveKeyWithArgon2id passphrase salt, log (EvDeriveKey passphrase salt) w).

(** Modelled from the spec: [crypto.Encrypt] is missing from the sources;
    "generates a fresh random nonce internally for every call, returns nonce
    concatenated with ciphertext and authentication tag". *)
Definition crypto_Encrypt (plaintext key : list byte) (w : World)
  : result (list byte) * World :=
  let '(rn, w1) := rand_ReadFull (AESGCMNonceSize config) (log (EvEncrypt plaintext key) w) in
  match rn with
  | Err e => (Err e, w1)
  | Ok nonce =>
      match gcm_seal key nonce plaintext with
      | Err e => (Err e, w1)
      | Ok sealed => (Ok (nonce ++ sealed), w1)
      end
  end.

(** Modelled from the spec: [crypto.Decrypt] is missing from the sources;
    "splits nonce from the remainder, verifies the tag before releasing any
    plaintext". *)
Definition crypto_Decrypt (nonceAndCiphertext key : list byte) (w : World)
  : result (list byte) * World :=
  (gcm_open key (take (AESGCMNonceSize config) nonceAndCiphertext)
                (drop (AESGCMNonceSize config) nonceAndCiphertext),
   log (EvDecrypt nonceAndCiphertext key) w).

(** *** The passphrase provider *)

Definition errNoTerminal : goerr :=
  Errorf (PassphraseEnvVar config +:+
    " environment variable not set and not running in a terminal to prompt for passphrase").

Definition getPassphrase (promptForCreation : bool) (w : World) : result string * World :=
  let passphrase := env_passphrase w in
  if negb (String.eqb passphrase "") then (Ok passphrase, w)
  else if negb (stdin_terminal w) then (Err errNoTerminal, w)
  else
    let '(r, w1) := term_ReadPassword w in
    match r with
    | Err err => (Err (Errorf ("failed to read passphrase: " +:+ emsg err)), w1)
    | Ok passphrase =>
        if promptForCreation && negb (String.eqb passphrase "") then
          let '(rc, w2) := term_ReadPassword w1 in
          match rc with
          | Err err =>
              (Err (Errorf ("failed to read passphrase confirmation: " +:+ emsg err)), w2)
          | Ok confirm =>
              if negb (String.eqb passphrase confirm)
              then (Err (Errorf "passphrases do not match"), w2)
              else (Ok passphrase, w2)
          end
        else (Ok passphrase, w1)
    end.

(** *** Session state *)

Definition IsUnlocked (s : Store) : bool :=
  passphraseProvided s && (0 <? length (sessionKey s))%nat.

Definition errLockedGet : goerr :=
  Errorf ("datastore is locked or not initialized. Please set "
          +:+ PassphraseEnvVar config +:+ " or provide passphrase.").
Definition errLockedAdd : goerr :=
  Errorf "datastore is locked. Cannot add/update satellite.".
Definition errLockedDelete : goerr :=
  Errorf "datastore is locked. Cannot delete satellite.".
Definition errNotFound (name : string) : goerr :=
  Errorf ("satellite '" +:+ name +:+ "' not found for deletion").

(** The copy loop of the source builds a map with the same entries. *)
Definition GetSatellites (s : Store) : result (gmap string Satellite) :=
  if negb (IsUnlocked s) then Err errLockedGet
  else Ok (map_fold (λ k v satsCopy, <[k := v]> satsCopy) ∅ (satellitesData s)).

Definition AddSatellite (sat : Satellite) (s : Store) : option goerr * Store :=
  if negb (IsUnlocked s) then (Some errLockedAdd, s)
  else (None, with_data (<[Name sat := sat]> (satellitesData s)) s).

Definition DeleteSatellite (name : string) (s : Store) : option goerr * Store :=
  if negb (IsUnlocked s) then (Some errLockedDelete, s)
  else match satellitesData s !! name with
       | None => (Some (errNotFound name), s)
       | Some _ => (None, with_data (delete name (satellitesData s)) s)
       end.

(** *** The load protocol *)

Definition errTooShort : goerr :=
  Errorf "encrypted datastore file is too short or corrupted (salt+nonce sections missing)".
Definition errPassAcquisition (passErr : goerr) : goerr :=
  Errorf ("passphrase acquisition failed for existing datastore: " +:+ emsg passErr).
Definition errPassNotProvided (path : string) : goerr :=
  Errorf ("passphrase not provided for existing datastore '" +:+ path +:+ "'").
Definition errReadFile (path : string) (err : goerr) : goerr :=
  Errorf ("failed to read encrypted datastore " +:+ path +:+ ": " +:+ emsg err).
Definition errKeyDerivationLoad (keyErr : goerr) : goerr :=
  Errorf ("key derivation failed during load: " +:+ emsg keyErr).
Definition errUnmarshal (err : goerr) : goerr :=
  Errorf ("failed to unmarshal decrypted satellite data: " +:+ emsg err
          +:+ " (data may be corrupt)").

Definition load (w : World) (s : Store) : option goerr * Store * World :=
  let '(fileExists, w1) := os_Stat_exists (dataPath s) w in
  let '(r, w2) := getPassphrase (negb fileExists) w1 in
  match r with
  | Err passErr =>
      if fileExists then (Some (errPassAcquisition passErr), lock s, w2)
      else (None, with_data ∅ (lock s), w2)
  | Ok currentPassphrase =>
      if String.eqb currentPassphrase "" then
        if fileExists then (Some (errPassNotProvided (dataPath s)), lock s, w2)
        else (None, with_data ∅ (lock s), w2)
      else
        let s1 := with_provided true s in
        if negb fileExists then (None, with_key [] (with_data ∅ s1), w2)
        else
          let '(rd, w3) := ioutil_ReadFile (dataPath s) w2 in
          match rd with
          | Err err => (Some (errReadFile (dataPath s) err), lock s1, w3)
          | Ok encryptedFileBytes =>
              if (length encryptedFileBytes
                    <? Argon2SaltSize config + AESGCMNonceSize config)%nat
              then (Some errTooShort, lock s1, w3)
              else
                let salt := take (Argon2SaltSize config) encryptedFileBytes in
                let nonceAndCiphertext := drop (Argon2SaltSize config) encryptedFileBytes in
                let '(rk, w4) := crypto_DeriveKeyWithArgon2id currentPassphrase salt w3 in
                match rk with
                | Err keyErr => (Some (errKeyDerivationLoad keyErr), lock s1, w4)
                | Ok key =>
                    let '(rp, w5) := crypto_Decrypt nonceAndCiphertext key w4 in
                    match rp with
                    | Err err => (Some err, lock s1, w5)
                    | Ok plaintext =>
                        let s2 := with_key key s1 in
                        match json_Unmarshal plaintext with
                        | Err err => (Some (errUnmarshal err), lock s2, w5)
                        | Ok tempSatellites => (None, with_data tempSatellites s2, w5)
                        end
                    end
                end
          end
  end.

(** *** The save protocol *)

Definition errSavePassRequired (passErr : option goerr) : goerr :=
  Errorf ("passphrase is required to save encrypted datastore: " +:+ fmt_w passErr
          +:+ " (or set " +:+ PassphraseEnvVar config +:+ ")").
Definition errReconfirm (errPass : option goerr) : goerr :=
  Errorf ("passphrase re-confirmation failed for saving: " +:+ fmt_w errPass).
Definition errMarshal (err : goerr) : goerr :=
  Errorf ("failed to marshal satellite data for encryption: " +:+ emsg err).
Definition errSalt (err : goerr) : goerr :=
  Errorf ("failed to generate salt: " +:+ emsg err).
Definition errKeyDerivationSave (keyErr : goerr) : goerr :=
  Errorf ("key derivation for save failed: " +:+ emsg keyErr).
Definition errEncrypt (err : goerr) : goerr :=
  Errorf ("encryption failed: " +:+ emsg err).
Definition errWriteTemp (tempDataPath : string) (err : goerr) : goerr :=
  Errorf ("failed to write temporary encrypted datastore " +:+ tempDataPath
          +:+ ": " +:+ emsg err).
Definition errCommit (tempDataPath path : string) (err : goerr) : goerr :=
  Errorf ("failed to commit encrypted datastore from " +:+ tempDataPath +:+ " to "
          +:+ path +:+ ": " +:+ emsg err).

(** [Save], first block: [if !passphraseProvided { ... }]. *)
Definition Save_require (w : World) (s : Store) : option goerr * Store * World :=
  if negb (passphraseProvided s) then
    let '(r, w1) := getPassphrase true w in
    match r with
    | Err passErr => (Some (errSavePassRequired (Some passErr)), s, w1)
    | Ok currentPassphrase =>
        if String.eqb currentPassphrase ""
        then (Some (errSavePassRequired None), s, w1)
        else (None, with_provided true s, w1)
    end
  else (None, s, w).

(** [Save], second block: the passphrase this save encrypts under. *)
Definition Save_passphrase (w : World) : result string * World :=
  let currentPassphrase := env_passphrase w in
  if String.eqb currentPassphrase "" then
    let '(r, w1) := getPassphrase false w in
    match r with
    | Err errPass => (Err (errReconfirm (Some errPass)), w1)
    | Ok currentPassphrase =>
        if String.eqb currentPassphrase ""
        then (Err (errReconfirm None), w1)
        else (Ok currentPassphrase, w1)
    end
  else (Ok currentPassphrase, w).

(** [Save], from [json.MarshalIndent] to the end. *)
Definition Save_write (currentPassphrase : string) (w : World) (s : Store)
  : option goerr * Store * World :=
  match json_MarshalIndent (satellitesData s) with
  | Err err => (Some (errMarshal err), s, w)
  | Ok plaintext =>
      let '(rs, w1) := rand_ReadFull (Argon2SaltSize config) w in
      match rs with
      | Err err => (Some (errSalt err), s, w1)
      | Ok salt =>
          let '(rk, w2) := crypto_DeriveKeyWithArgon2id currentPassphrase salt w1 in
          match rk with
          | Err keyErr => (Some (errKeyDerivationSave keyErr), s, w2)
          | Ok keyForSave =>
              let s1 := with_key keyForSave s in
              let '(re, w3) := crypto_Encrypt plaintext keyForSave w2 in
              match re with
              | Err err => (Some (errEncrypt err), s1, w3)
              | Ok nonceAndCiphertext =>
                  let encryptedFileBytes := salt ++ nonceAndCiphertext in
                  let tempDataPath := dataPath s +:+ ".tmp" in
                  let '(ew, w4) := ioutil_WriteFile tempDataPath encryptedFileBytes w3 in
                  match ew with
                  | Some err => (Some (errWriteTemp tempDataPath err), s1, w4)
                  | None =>
                      let '(er, w5) := os_Rename tempDataPath (dataPath s) w4 in
                      match er with
                      | Some err =>
                          (* _ = os.Remove(tempDataPath) *)
                          let '(_, w6) := os_Remove tempDataPath w5 in
                          (Some (errCommit tempDataPath (dataPath s) err), s1, w6)
                      | None => (None, s1, w5)
                      end
                  end
              end
          end
      end
  end.

Definition Save (w : World) (s : Store) : option goerr * Store * World :=
  let '(e, s1, w1) := Save_require w s in
  match e with
  | Some err => (Some err, s1, w1)
  | None =>
      let '(r, w2) := Save_passphrase w1 in
      match r with
      | Err err => (Some err, s1, w2)
      | Ok currentPassphrase => Save_write currentPassphrase w2 s1
      end
  end.

(** *** Start-up *)

Definition Init (w : World) (s : Store) : option goerr * Store * World :=
  match executable w with
  | Err err => (Some (Errorf ("failed to get executable path: " +:+ emsg err)), s, w)
  | Ok exePath =>
      let exeDir := filepath_Dir exePath in
      let s0 := with_path (filepath_Join exeDir (DataFileName config)) s in
      let '(e, s1, w1) := load w s0 in
      match e with
      | Some err =>
          if os_IsNotExist err then (None, lock s1, w1)
          else if Contains (emsg err) "passphrase" || Contains (emsg err) "decrypt"
          then (None, lock s1, w1)
          else (Some err, s1, w1)
      | None => (None, s1, w1)
      end
  end.

(** [rootCmd.PersistentPreRunE] of cmd/satcli/main.go, for a command that is
    not help, version or completion: an error returned here ends the process
    before the command runs. *)
Definition PersistentPreRunE (w : World) (s : Store) : option goerr * Store * World :=
  let '(e, s1, w1) := Init w s in
  match e with
  | Some err =>
      if negb (Contains (emsg err) "passphrase") && negb (Contains (emsg err) "decrypt")
         && negb (os_IsNotExist err)
      then (Some err, s1, w1)
      else (None, s1, w1)
  | None => (None, s1, w1)
  end.

End Datastore.

(** ** cmd/satcli/main.go: the data commands

    Of [queryCmd] the embedding keeps what is decided before anything is
    printed: the gate, the validation of the flags and the loop that selects
    the records.  The sort by name and the three output formats are left
    out, so the selection is read as a collection of records, not as an
    order. *)

(** What the commands call and do not define. *)
Class CmdExternals := {
  (** [strings.EqualFold] *)
  strings_EqualFold : string → string → bool;
  (** [time.Parse(config.DateFormat, s)], the instant counted from Go's
      zero time, so that [IsZero] is the test against 0 *)
  time_Parse : string → result Z;
  (** what [%.0f] prints *)
  fmt_f0 : float → string
}.

(** [strconv.ParseBool]; the commands do not look at its error. *)
Definition strconv_ParseBool (str : string) : option bool :=
  if bool_decide (str ∈ ["1"; "t"; "T"; "TRUE"; "true"; "True"]) then Some true
  else if bool_decide (str ∈ ["0"; "f"; "F"; "FALSE"; "false"; "False"]) then Some false
  else None.

(** The flags of [queryCmd], under the names the command reads them into. *)
Record QueryFlags := {
  operatorFilter : string;
  statusFilter : string;
  orbitTypeFilter : string;
  launchAfterStr : string;
  launchBeforeStr : string;
  constellationStr : string;
  minAltitude : float;
  maxAltitude : float
}.

Section Commands.
Context `{ext : Externals} `{cext : CmdExternals}.

Definition errNotAccessible : goerr :=
  Errorf ("datastore not accessible. Passphrase not provided or was incorrect. Set "
          +:+ PassphraseEnvVar config +:+ " or enter correct passphrase at prompt.").
Definition errEmptyName : goerr := Errorf "satellite name cannot be empty".
Definition errSaveRecord (name : string) (err : goerr) : goerr :=
  Errorf ("failed to save record for '" +:+ name +:+ "': " +:+ emsg err).

(** [addCmd.RunE] on its four arguments; [today] is
    [time.Now().Format(config.DateFormat)]. *)
Definition addCmd (today name operator status orbitType : string)
    (w : World) (s : Store) : option goerr * Store * World :=
  if negb (IsUnlocked s) then (Some errNotAccessible, s, w)
  else if String.eqb name "" then (Some errEmptyName, s, w)
  else
    let newSat :=
      {| Name := name; OrbitType := orbitType; Altitude := 0; Eccentricity := 0;
         Inclination := 0; PowerSystem := ""; Communication := ""; Size := 0;
         Weight := 0; Constellation := false; RemoteSensing := "";
         LaunchDate := today; Operator := operator; MissionObjective := "";
         Status := status |} in
    let '(e, s1) := AddSatellite newSat s in
    match e with
    | Some err => (Some err, s1, w)
    | None =>
        let '(e2, s2, w2) := Save w s1 in
        match e2 with
        | Some err => (Some (errSaveRecord name err), s2, w2)
        | None => (None, s2, w2)
        end
    end.

Definition errGetSatellites (err : goerr) : goerr :=
  Errorf ("failed to get satellites: " +:+ emsg err).
Definition errLaunchAfter (str : string) (errParse : goerr) : goerr :=
  Errorf ("invalid format for --launch-after: '" +:+ str
          +:+ "'. Use YYYY-MM-DD. (Details: " +:+ emsg errParse +:+ ")").
Definition errLaunchBefore (str : string) (errParse : goerr) : goerr :=
  Errorf ("invalid format for --launch-before: '" +:+ str
          +:+ "'. Use YYYY-MM-DD. (Details: " +:+ emsg errParse +:+ ")").
Definition errDateOrder (afterStr beforeStr : string) : goerr :=
  Errorf ("--launch-after date (" +:+ afterStr
          +:+ ") cannot be after --launch-before date (" +:+ beforeStr +:+ ")").
Definition errAltitudeOrder (lo hi : float) : goerr :=
  Errorf ("--min-altitude (" +:+ fmt_f0 lo
          +:+ ") cannot be greater than --max-altitude (" +:+ fmt_f0 hi +:+ ")").
Definition errConstellation (str : string) : goerr :=
  Errorf ("invalid value for --constellation: '" +:+ str +:+ "'. Use 'true' or 'false'").

(** The first four filters of the loop body: operator, status, orbit type
    and launch date. *)
Definition query_matches_text (q : QueryFlags) (launchAfterDate launchBeforeDate : Z)
    (sat : Satellite) : bool :=
  let matches := true in
  let matches :=
    if negb (String.eqb (operatorFilter q) "")
       && negb (strings_EqualFold (Operator sat) (operatorFilter q))
    then false else matches in
  let matches :=
    if matches && negb (String.eqb (statusFilter q) "")
       && negb (strings_EqualFold (Status sat) (statusFilter q))
    then false else matches in
  let matches :=
    if matches && negb (String.eqb (orbitTypeFilter q) "")
       && negb (strings_EqualFold (OrbitType sat) (orbitTypeFilter q))
    then false else matches in
  if matches && (negb (String.eqb (launchAfterStr q) "")
                 || negb (String.eqb (launchBeforeStr q) ""))
  then
    match time_Parse (LaunchDate sat) with
    | Err _ => false
    | Ok satLaunchDate =>
        let matches :=
          if negb (launchAfterDate =? 0)%Z && (satLaunchDate <? launchAfterDate)%Z
          then false else matches in
        if matches && negb (launchBeforeDate =? 0)%Z
           && (launchBeforeDate <? satLaunchDate)%Z
        then false else matches
    end
  else matches.

(** The altitude filters, the last of the loop body. *)
Definition query_matches_altitude (q : QueryFlags) (sat : Satellite) : bool :=
  let matches := true in
  let matches :=
    if (0 <? minAltitude q)%float && (Altitude sat <? minAltitude q)%float
    then false else matches in
  if matches && (0 <? maxAltitude q)%float && (maxAltitude q <? Altitude sat)%float
  then false else matches.

(** One turn of the loop: an error ends the command, [Ok true] appends the
    record. *)
Definition query_matches (q : QueryFlags) (launchAfterDate launchBeforeDate : Z)
    (sat : Satellite) : result bool :=
  if negb (query_matches_text q launchAfterDate launchBeforeDate sat) then Ok false
  else
    if negb (String.eqb (constellationStr q) "") then
      match strconv_ParseBool (constellationStr q) with
      | None => Err (errConstellation (constellationStr q))
      | Some constellationFilterVal =>
          if negb (Bool.eqb (Constellation sat) constellationFilterVal) then Ok false
          else Ok (query_matches_altitude q sat)
      end
    else Ok (query_matches_altitude q sat).

(** The loop over the map, in the order the map gives its entries. *)
Fixpoint query_loop (q : QueryFlags) (launchAfterDate launchBeforeDate : Z)
    (entries : list (string * Satellite)) (filteredSatellites : list Satellite)
  : result (list Satellite) :=
  match entries with
  | [] => Ok filteredSatellites
  | (_, sat) :: rest =>
      match query_matches q launchAfterDate launchBeforeDate sat with
      | Err e => Err e
      | Ok true =>
          query_loop q launchAfterDate launchBeforeDate rest (filteredSatellites ++ [sat])
      | Ok false => query_loop q launchAfterDate launchBeforeDate rest filteredSatellites
      end
  end.

(** [queryCmd.RunE], the checks on the flags before the loop: the two dates,
    the zero time standing for a flag that was not given. *)
Definition query_validate (q : QueryFlags) : result (Z * Z) :=
  match (if negb (String.eqb (launchAfterStr q) "")
         then time_Parse (launchAfterStr q) else Ok 0%Z) with
  | Err errParse => Err (errLaunchAfter (launchAfterStr q) errParse)
  | Ok launchAfterDate =>
      match (if negb (String.eqb (launchBeforeStr q) "")
             then time_Parse (launchBeforeStr q) else Ok 0%Z) with
      | Err errParse => Err (errLaunchBefore (launchBeforeStr q) errParse)
      | Ok launchBeforeDate =>
          if negb (launchAfterDate =? 0)%Z && negb (launchBeforeDate =? 0)%Z
             && (launchBeforeDate <? launchAfterDate)%Z
          then Err (errDateOrder (launchAfterStr q) (launchBeforeStr q))
          else if (0 <? minAltitude q)%float && (0 <? maxAltitude q)%float
                  && (maxAltitude q <? minAltitude q)%float
          then Err (errAltitudeOrder (minAltitude q) (maxAltitude q))
          else Ok (launchAfterDate, launchBeforeDate)
      end
  end.

(** [queryCmd.RunE] up to the end of its loop. *)
Definition queryCmd_select (q : QueryFlags) (s : Store) : result (list Satellite) :=
  if negb (IsUnlocked s) then Err errNotAccessible
  else
    match GetSatellites s with
    | Err err => Err (errGetSatellites err)
    | Ok satsMap =>
        match query_validate q with
        | Err err => Err err
        | Ok (launchAfterDate, launchBeforeDate) =>
            query_loop q launchAfterDate launchBeforeDate (map_to_list satsMap) []
        end
    end.

(** [listCmd.RunE] up to its sort: the records it will print. *)
Definition listCmd_select (s : Store) : result (list Satellite) :=
  if negb (IsUnlocked s) then Err errNotAccessible
  else
    match GetSatellites s with
    | Err err => Err (errGetSatellites err)
    | Ok satsMap => Ok (snd <$> map_to_list satsMap)
    end.

End Commands.

(** ** A small instance of the externals

    The properties below hold for every instance of [Externals], some under
    the laws a key derivation, an AEAD and a codec obey.  This instance
    obeys them and runs inside Rocq; the examples are evaluated on it.  It
    protects nothing: the sealed payload is the reversed plaintext followed
    by key and nonce as its tag. *)
Module Sample.

#[local] Instance byte_eq_dec : EqDecision byte := Byte.byte_eq_dec.

Definition cfg : Config :=
  {| PassphraseEnvVar := "SATCLI_PASSPHRASE"; DataFileName := "satellites.enc";
     Argon2SaltSize := 16; AESGCMNonceSize := 12 |}.

Definition derive (passphrase : string) (salt : list byte) : result (list byte) :=
  Ok (Strings.String.list_byte_of_string passphrase ++ salt).

Definition errAuth : goerr :=
  Errorf "decryption failed (wrong passphrase or corrupted data)".

Definition seal (key nonce plaintext : list byte) : result (list byte) :=
  Ok (rev plaintext ++ key ++ nonce).

Definition open (key nonce sealed : list byte) : result (list byte) :=
  let n := (length sealed - length (key ++ nonce))%nat in
  if bool_decide (drop n sealed = key ++ nonce) then Ok (rev (take n sealed))
  else Err errAuth.

(** The codec: a count, then per record its fields in declaration order;
    strings and numbers are length-prefixed or fixed-width. *)
Fixpoint le_bytes (width : nat) (n : N) : list byte :=
  match width with
  | O => []
  | S k => default x00 (Byte.of_N (n mod 256)%N) :: le_bytes k (n / 256)%N
  end.

Fixpoint le_value (bs : list byte) : N :=
  match bs with
  | [] => 0%N
  | b :: rest => (Byte.to_N b + 256 * le_value rest)%N
  end.

Definition enc_string (s : string) : list byte :=
  le_bytes 2 (N.of_nat (String.length s)) ++ Strings.String.list_byte_of_string s.

Definition enc_bool (b : bool) : list byte := [if b then x01 else x00].

Definition enc_float (f : float) : list byte :=
  match Prim2SF f with
  | S754_zero sg => x00 :: enc_bool sg
  | S754_infinity sg => x01 :: enc_bool sg
  | S754_nan => [x02]
  | S754_finite sg m e =>
      x03 :: enc_bool sg ++ le_bytes 8 (Npos m) ++ le_bytes 2 (Z.to_N (e + 2000))
  end.

Definition enc_satellite (r : Satellite) : list byte :=
  enc_string (Name r) ++ enc_string (OrbitType r) ++ enc_float (Altitude r)
  ++ enc_float (Eccentricity r) ++ enc_float (Inclination r)
  ++ enc_string (PowerSystem r) ++ enc_string (Communication r)
  ++ enc_float (Size r) ++ enc_float (Weight r) ++ enc_bool (Constellation r)
  ++ enc_string (RemoteSensing r) ++ enc_string (LaunchDate r)
  ++ enc_string (Operator r) ++ enc_string (MissionObjective r)
  ++ enc_string (Status r).

Definition marshal (m : gmap string Satellite) : result (list byte) :=
  let entries := map_to_list m in
  Ok (le_bytes 2 (N.of_nat (length entries))
      ++ concat (map (λ kv, enc_string (fst kv) ++ enc_satellite (snd kv)) entries)).

Definition split_at (n : nat) (bs : list byte) : option (list byte * list byte) :=
  if (n <=? length bs)%nat then Some (take n bs, drop n bs) else None.

Definition dec_string (bs : list byte) : option (string * list byte) :=
  '(len, rest) ← split_at 2 bs;
  '(body, rest') ← split_at (N.to_nat (le_value len)) rest;
  Some (Strings.String.string_of_list_byte body, rest').

Definition dec_bool (bs : list byte) : option (bool * list byte) :=
  match bs with
  | b :: rest => Some (negb (Byte.eqb b x00), rest)
  | [] => None
  end.

Definition dec_float (bs : list byte) : option (float * list byte) :=
  match bs with
  | x00 :: rest => '(sg, rest') ← dec_bool rest; Some (SF2Prim (S754_zero sg), rest')
  | x01 :: rest => '(sg, rest') ← dec_bool rest; Some (SF2Prim (S754_infinity sg), rest')
  | x02 :: rest => Some (SF2Prim S754_nan, rest)
  | x03 :: rest =>
      '(sg, r1) ← dec_bool rest;
      '(m, r2) ← split_at 8 r1;
      '(e, r3) ← split_at 2 r2;
      match le_value m with
      | Npos p => Some (SF2Prim (S754_finite sg p (Z.of_N (le_value e) - 2000)), r3)
      | N0 => None
      end
  | _ => None
  end.

Definition dec_satellite (bs : list byte) : option (Satellite * list byte) :=
  '(name, r1) ← dec_string bs;
  '(orbitType, r2) ← dec_string r1;
  '(altitude, r3) ← dec_float r2;
  '(eccentricity, r4) ← dec_float r3;
  '(inclination, r5) ← dec_float r4;
  '(powerSystem, r6) ← dec_string r5;
  '(communication, r7) ← dec_string r6;
  '(size, r8) ← dec_float r7;
  '(weight, r9) ← dec_float r8;
  '(constellation, r10) ← dec_bool r9;
  '(remoteSensing, r11) ← dec_string r10;
  '(launchDate, r12) ← dec_string r11;
  '(operator, r13) ← dec_string r12;
  '(missionObjective, r14) ← dec_string r13;
  '(status, r15) ← dec_string r14;
  Some ({| Name := name; OrbitType := orbitType; Altitude := altitude;
           Eccentricity := eccentricity; Inclination := inclination;
           PowerSystem := powerSystem; Communication := communication;
           Size := size; Weight := weight; Constellation := constellation;
           RemoteSensing := remoteSensing; LaunchDate := launchDate;
           Operator := operator; MissionObjective := missionObjective;
           Status := status |}, r15).

Fixpoint dec_entries (count : nat) (bs : list byte)
  : option (gmap string Satellite) :=
  match count with
  | O => match bs with [] => Some ∅ | _ => None end
  | S k =>
      '(key, r1) ← dec_string bs;
      '(sat, r2) ← dec_satellite r1;
      m ← dec_entries k r2;
      Some (<[key := sat]> m)
  end.

Definition errSyntax : goerr := Errorf "invalid character looking for beginning of value".

Definition unmarshal (bs : list byte) : result (gmap string Satellite) :=
  match ('(count, rest) ← split_at 2 bs; dec_entries (N.to_nat (le_value count)) rest) with
  | Some m => Ok m
  | None => Err errSyntax
  end.

Definition externals : Externals :=
  {| config := cfg; DeriveKeyWithArgon2id := derive;
     gcm_seal := seal; gcm_open := open;
     json_MarshalIndent := marshal; json_Unmarshal := unmarshal;
     filepath_Dir := λ exePath, "/opt/satcli";
     filepath_Join := λ dir name, dir +:+ "/" +:+ name |}.

(** The record of the specification's end-to-end scenario. *)
Definition sat1 : Satellite :=
  {| Name := "SAT-1"; OrbitType := "LEO"; Altitude := 550; Eccentricity := 0;
     Inclination := 0; PowerSystem := ""; Communication := ""; Size := 0;
     Weight := 0; Constellation := false; RemoteSensing := "";
     LaunchDate := "2024-01-01"; Operator := "ESA"; MissionObjective := "";
     Status := "active" |}.

Definition path : string := "/opt/satcli/satellites.enc".

Definition fresh : Store :=
  {| satellitesData := ∅; dataPath := ""; passphraseProvided := false; sessionKey := [] |}.

(** A machine with the passphrase in the environment and no data file. *)
Definition world0 : World :=
  {| env_passphrase := "correct-horse"; stdin_terminal := false; tty := [];
     executable := Ok "/opt/satcli/satcli"; files := ∅;
     write_fault := None; rename_fault := None; remove_fault := None;
     rand_reader := repeat x2a 16 ++ repeat x07 12 ++ repeat x11 40;
     trace := [] |}.

Definition with_env (p : string) (w : World) : World :=
  {| env_passphrase := p; stdin_terminal := stdin_terminal w;
     tty := tty w; executable := executable w; files := files w;
     write_fault := write_fault w; rename_fault := rename_fault w;
     remove_fault := remove_fault w;
     rand_reader := rand_reader w; trace := trace w |}.

Definition with_remove_fault (e : option goerr) (w : World) : World :=
  {| env_passphrase := env_passphrase w; stdin_terminal := stdin_terminal w;
     tty := tty w; executable := executable w; files := files w;
     write_fault := write_fault w; rename_fault := rename_fault w;
     remove_fault := e;
     rand_reader := rand_reader w; trace := trace w |}.

Definition with_rename_fault (e : option goerr) (w : World) : World :=
  {| env_passphrase := env_passphrase w; stdin_terminal := stdin_terminal w;
     tty := tty w; executable := executable w; files := files w;
     write_fault := write_fault w; rename_fault := e;
     remove_fault := remove_fault w;
     rand_reader := rand_reader w; trace := trace w |}.

(** A store holding the scenario's record, unlocked. *)
Definition unlocked1 : Store :=
  {| satellitesData := {[ "SAT-1" := sat1 ]}; dataPath := path;
     passphraseProvided := true; sessionKey := [x01] |}.

Definition salt0 : list byte := repeat x2a 16.
Definition nonce0 : list byte := repeat x07 12.

(** A data file of three bytes. *)
Definition world_short : World :=
  with_files {[ path := Ok [x01; x02; x03] ]} world0.

(** A data file that opens under "correct-horse" to a payload that is no
    serialized collection. *)
Definition world_garbled : World :=
  with_files
    {[ path := Ok (salt0 ++ nonce0 ++ [xff]
                   ++ (Strings.String.list_byte_of_string "correct-horse" ++ salt0)
                   ++ nonce0) ]}
    world0.

(** No passphrase in the environment, a terminal at which [lines] are typed. *)
Definition world_prompt (lines : list (result string)) : World :=
  {| env_passphrase := ""; stdin_terminal := true; tty := lines;
     executable := Ok "/opt/satcli/satcli"; files := ∅;
     write_fault := None; rename_fault := None; remove_fault := None;
     rand_reader := repeat x2a 16 ++ repeat x07 12 ++ repeat x11 40;
     trace := [] |}.

Definition errDenied : goerr := Errorf "permission denied".

(** The command externals of the instance: folding of ASCII letters, dates
    read as the number yyyymmdd, numbers printed without their fraction. *)
Definition lower_ascii (c : Ascii.ascii) : Ascii.ascii :=
  let n := Ascii.N_of_ascii c in
  if (65 <=? n)%N && (n <=? 90)%N then Ascii.ascii_of_N (n + 32) else c.

Fixpoint lower (str : string) : string :=
  match str with
  | EmptyString => EmptyString
  | String c rest => String (lower_ascii c) (lower rest)
  end.

Definition equal_fold (a b : string) : bool := String.eqb (lower a) (lower b).

Definition digit (c : Ascii.ascii) : option Z :=
  let n := Z.of_N (Ascii.N_of_ascii c) in
  if (48 <=? n)%Z && (n <=? 57)%Z then Some (n - 48)%Z else None.

Definition errDate : goerr := Errorf "parsing time: cannot parse as 2006-01-02".

Definition parse_date (str : string) : result Z :=
  match Strings.String.list_ascii_of_string str with
  | [y1; y2; y3; y4; s1; m1; m2; s2; d1; d2] =>
      if Ascii.eqb s1 (Ascii.ascii_of_nat 45) && Ascii.eqb s2 (Ascii.ascii_of_nat 45)
      then match mapM digit [y1; y2; y3; y4; m1; m2; d1; d2] with
           | Some ds => Ok (foldl (λ acc d, 10 * acc + d)%Z 0%Z ds)
           | None => Err errDate
           end
      else Err errDate
  | _ => Err errDate
  end.

Definition print_f0 (f : float) : string :=
  match Prim2SF f with
  | S754_finite sg m e =>
      (if sg then "-" else "")
      +:+ pretty (if (0 <=? e)%Z then Z.pos m * 2 ^ e else Z.pos m / 2 ^ (- e))%Z
  | S754_zero sg => if sg then "-0" else "0"
  | S754_infinity sg => if sg then "-Inf" else "+Inf"
  | S754_nan => "NaN"
  end.

Definition cmd_externals : CmdExternals :=
  {| strings_EqualFold := equal_fold; time_Parse := parse_date; fmt_f0 := print_f0 |}.

Definition no_flags : QueryFlags :=
  {| operatorFilter := ""; statusFilter := ""; orbitTypeFilter := "";
     launchAfterStr := ""; launchBeforeStr := ""; constellationStr := "";
     minAltitude := 0; maxAltitude := 0 |}.

(** --operator esa --launch-after 2023-06-01 --min-altitude 500 *)
Definition flags_esa : QueryFlags :=
  {| operatorFilter := "esa"; statusFilter := ""; orbitTypeFilter := "";
     launchAfterStr := "2023-06-01"; launchBeforeStr := ""; constellationStr := "";
     minAltitude := 500; maxAltitude := 0 |}.

(** --constellation maybe *)
Definition flags_maybe : QueryFlags :=
  {| operatorFilter := ""; statusFilter := ""; orbitTypeFilter := "";
     launchAfterStr := ""; launchBeforeStr := ""; constellationStr := "maybe";
     minAltitude := 0; maxAltitude := 0 |}.

(** The store of a process that could not unlock, holding a record. *)
Definition locked1 : Store :=
  {| satellitesData := {[ "SAT-1" := sat1 ]}; dataPath := path;
     passphraseProvided := false; sessionKey := [] |}.

(** No passphrase in the environment and no terminal; a data file exists. *)
Definition world_headless : World :=
  with_files {[ path := Ok [x01; x02; x03] ]} (with_env "" world0).

(** What [marshal] makes of the scenario's collection. *)
Definition payload1 : list byte :=
  match marshal {[ "SAT-1" := sat1 ]} with Ok bs => bs | Err _ => [] end.

(** The scenario's collection with a second record. *)
Definition unlocked2 : Store :=
  {| satellitesData :=
       <[ "SAT-2" := {| Name := "SAT-2"; OrbitType := "GEO"; Altitude := 35786;
                        Eccentricity := 0; Inclination := 0; PowerSystem := "";
                        Communication := ""; Size := 0; Weight := 0;
                        Constellation := false; RemoteSensing := "";
                        LaunchDate := "2020-02-02"; Operator := "NASA";
                        MissionObjective := ""; Status := "active" |} ]>
         {[ "SAT-1" := sat1 ]};
     dataPath := path; passphraseProvided := true; sessionKey := [x01] |}.

(** The machine after the scenario's collection was saved: the data file
    exists. *)
Definition world_saved : World := snd (@Save externals world0 unlocked1).

(** The same machine when renames are refused. *)
Definition world_stuck : World := with_rename_fault (Some errDenied) world_saved.

(** The same machine when renames and removals are refused. *)
Definition world_stuck_fast : World := with_remove_fault (Some errDenied) world_stuck.

End Sample.

(** ** Properties *)

(** Which calls reach the key derivation or the cipher. *)
Definition is_crypto (ev : Event) : bool :=
  match ev with
  | EvDeriveKey _ _ | EvEncrypt _ _ | EvDecrypt _ _ => true
  | _ => false
  end.

(** Every record is stored under its own name. *)
Definition names_are_keys (m : gmap string Satellite) : Prop :=
  ∀ k v, m !! k = Some v → Name v = k.

(** Which calls change nothing outside the process. *)
Definition is_read_only (ev : Event) : bool :=
  match ev with
  | EvStat _ | EvReadFile _ | EvDeriveKey _ _ | EvDecrypt _ _ => true
  | _ => false
  end.

(** The calls made between world [w] and the later world [w']. *)
Definition events_since (w w' : World) : list Event :=
  take (length (trace w') - length (trace w)) (trace w').

Lemma length_append (a b : string) :
  String.length (a +:+ b) = String.length a + String.length b.
Proof. induction a as [|c a IH]; simpl; [done | by rewrite IH]. Qed.

Lemma temp_path_fresh (p : string) : p +:+ ".tmp" ≠ p.
Proof.
  intros E. apply (f_equal String.length) in E.
  rewrite length_append in E. simpl in E. lia.
Qed.

Lemma lock_idemp_fields (s : Store) (k : list byte) (b : bool) :
  lock (with_key k (with_provided b s)) = lock s.
Proof. reflexivity. Qed.

Lemma events_since_app (w w' : World) (evs : list Event) :
  trace w' = evs ++ trace w → events_since w w' = evs.
Proof.
  intros E. unfold events_since. rewrite E, length_app.
  replace (length evs + length (trace w) - length (trace w)) with (length evs) by lia.
  by rewrite take_app_length.
Qed.

(** Reads off, from the trace of the later world, the calls made since the
    earlier one. *)
Ltac trace_prefix l base :=
  lazymatch l with
  | base => constr:(@nil Event)
  | ?ev :: ?l' => let r := trace_prefix l' base in constr:(ev :: r)
  end.

Ltac new_events :=
  match goal with
  | |- context [events_since ?w ?w'] =>
      let t := eval simpl in (trace w') in
      let b := eval simpl in (trace w) in
      let evs := trace_prefix t b in
      rewrite (events_since_app w w' evs) by reflexivity
  end.

Lemma with_tty_self (w : World) : with_tty (tty w) w = w.
Proof. by destruct w. Qed.

Section Properties.
Context `{ext : Externals}.

(** The passphrase provider only consumes terminal input. *)
Lemma getPassphrase_frame (b : bool) (w w1 : World) (r : result string) :
  getPassphrase b w = (r, w1) → ∃ t, w1 = with_tty t w.
Proof.
  unfold getPassphrase, term_ReadPassword. intros E.
  repeat case_match; simplify_eq; try (by eexists);
    exists (tty w1); symmetry; apply with_tty_self.
Qed.

Lemma getPassphrase_env (b : bool) (w : World) :
  env_passphrase w ≠ "" → getPassphrase b w = (Ok (env_passphrase w), w).
Proof.
  intros Hne. unfold getPassphrase.
  destruct (String.eqb_spec (env_passphrase w) ""); [done | reflexivity].
Qed.

Lemma IsUnlocked_lock (s : Store) : IsUnlocked (lock s) = false.
Proof. reflexivity. Qed.

Lemma copy_loop (m : gmap string Satellite) :
  map_fold (λ k v satsCopy, <[k := v]> satsCopy) ∅ m = m.
Proof.
  apply (map_fold_weak_ind (λ r m, r = m)); [done |].
  intros i x m' r _ ->. done.
Qed.

(** C7. [GetSatellites], [AddSatellite] and [DeleteSatellite] each fail with
    their "datastore is locked" error, leaving the store as it was, whenever
    [IsUnlocked] is false; whenever it is true, [GetSatellites] returns the
    collection, [AddSatellite] succeeds, and [DeleteSatellite] succeeds on a
    name that is present. *)
Theorem locked_state_gating (s : Store) (sat : Satellite) (name : string) :
  (IsUnlocked s = false →
     GetSatellites s = Err errLockedGet
     ∧ AddSatellite sat s = (Some errLockedAdd, s)
     ∧ DeleteSatellite name s = (Some errLockedDelete, s))
  ∧ (IsUnlocked s = true →
     GetSatellites s = Ok (satellitesData s)
     ∧ fst (AddSatellite sat s) = None
     ∧ (is_Some (satellitesData s !! name) → fst (DeleteSatellite name s) = None)).
Proof.
  unfold GetSatellites, AddSatellite, DeleteSatellite. split; intros ->; simpl.
  - done.
  - rewrite copy_loop. split_and!; [done..|]. by intros [x ->].
Qed.

(** C8. On an unlocked store, [DeleteSatellite] of a name that is not in the
    collection fails with the "not found for deletion" error and returns the
    store, hence the collection, unchanged. *)
Theorem delete_absent (s : Store) (name : string) :
  IsUnlocked s = true →
  satellitesData s !! name = None →
  DeleteSatellite name s = (Some (errNotFound name), s).
Proof. intros Hu Hn. unfold DeleteSatellite. by rewrite Hu, Hn. Qed.

(** C9. On an unlocked store, [AddSatellite r] succeeds; afterwards the
    collection maps [Name r] to [r] whether or not that name was bound
    before, every other name is bound as before, and the names of the
    collection are pairwise distinct. *)
Theorem put_upsert (s : Store) (r : Satellite) :
  IsUnlocked s = true →
  ∃ s', AddSatellite r s = (None, s')
    ∧ satellitesData s' !! Name r = Some r
    ∧ (∀ name, name ≠ Name r → satellitesData s' !! name = satellitesData s !! name)
    ∧ NoDup (fst <$> map_to_list (satellitesData s'))
    ∧ dataPath s' = dataPath s ∧ passphraseProvided s' = passphraseProvided s
    ∧ sessionKey s' = sessionKey s.
Proof.
  intros Hu. unfold AddSatellite. rewrite Hu. simpl. eexists. split; [done |].
  simpl. split_and!; try done.
  - apply lookup_insert_eq.
  - intros name Hne. by apply lookup_insert_ne.
  - apply NoDup_fst_map_to_list.
Qed.

(** C10. Whenever [load] returns an error, the store it leaves is the one it
    was given with [passphraseProvided] false and [sessionKey] empty, so
    [IsUnlocked] is false; and the error is one of: passphrase acquisition
    failed or no passphrase for an existing file, the file could not be read,
    the file is too short, key derivation failed, decryption failed,
    deserialization failed. *)
Theorem load_error_locks (w w' : World) (s s' : Store) (e : goerr) :
  load w s = (Some e, s', w') →
  s' = lock s
  ∧ passphraseProvided s' = false ∧ sessionKey s' = [] ∧ IsUnlocked s' = false
  ∧ ((∃ passErr, e = errPassAcquisition passErr)
     ∨ e = errPassNotProvided (dataPath s)
     ∨ (∃ err, e = errReadFile (dataPath s) err)
     ∨ e = errTooShort
     ∨ (∃ keyErr, e = errKeyDerivationLoad keyErr)
     ∨ (∃ key nonce sealed, gcm_open key nonce sealed = Err e)
     ∨ (∃ err, e = errUnmarshal err)).
Proof.
  unfold load, os_Stat_exists, crypto_DeriveKeyWithArgon2id, crypto_Decrypt.
  intros E. repeat case_match; simplify_eq; (split; [reflexivity |]);
    (split_and!; [reflexivity..|]); eauto 10.
Qed.

(** C1. When the data file does not exist and the provider returns a
    non-empty passphrase, [load] succeeds with [passphraseProvided] set, the
    collection empty and [sessionKey] empty; [IsUnlocked], which also asks
    for a non-empty session key, is then false, and [AddSatellite] is turned
    away with the "datastore is locked" error. *)
Theorem load_new_store_stays_locked (w w1 : World) (s : Store) (P : string) :
  files w !! dataPath s = None →
  getPassphrase true (log (EvStat (dataPath s)) w) = (Ok P, w1) →
  P ≠ "" →
  ∃ s', load w s = (None, s', w1)
    ∧ passphraseProvided s' = true
    ∧ satellitesData s' = ∅
    ∧ sessionKey s' = []
    ∧ IsUnlocked s' = false
    ∧ ∀ sat, AddSatellite sat s' = (Some errLockedAdd, s').
Proof.
  intros Hf Hp Hne. unfold load, os_Stat_exists. rewrite Hf.
  rewrite bool_decide_eq_false_2 by (by intros [? ?]). simpl. rewrite Hp.
  destruct (String.eqb_spec P ""); [done |]. eexists. split; [reflexivity |].
  by split_and!.
Qed.

(** C6. When the data file exists, can be read and is shorter than
    [Argon2SaltSize + AESGCMNonceSize] bytes, [load] fails and leaves the
    store locked without any call to the key derivation or the cipher; once
    the provider has returned a non-empty passphrase the error is the "too
    short or corrupted" one, and the only calls made are the stat and the
    read of the file. *)
Theorem load_truncated (w : World) (s : Store) (data : list byte) :
  files w !! dataPath s = Some (Ok data) →
  length data < Argon2SaltSize config + AESGCMNonceSize config →
  ∃ e w', load w s = (Some e, lock s, w')
    ∧ Forall (λ ev, is_crypto ev = false) (events_since w w')
    ∧ ∀ P w1, getPassphrase false (log (EvStat (dataPath s)) w) = (Ok P, w1) →
        P ≠ "" →
        e = errTooShort
        ∧ events_since w w' = [EvReadFile (dataPath s); EvStat (dataPath s)].
Proof.
  intros Hf Hlen. unfold load, os_Stat_exists, ioutil_ReadFile. rewrite Hf.
  rewrite bool_decide_eq_true_2 by eauto. simpl.
  destruct (getPassphrase false (log (EvStat (dataPath s)) w)) as [r w1] eqn:Hp.
  destruct (getPassphrase_frame _ _ _ _ Hp) as [t ->].
  destruct r as [P | passErr].
  - destruct (String.eqb_spec P "") as [-> | HP].
    + do 2 eexists. split; [reflexivity |]. split.
      * new_events. repeat constructor.
      * intros P' w1' [= <- _]. done.
    + simpl. rewrite Hf. apply Nat.ltb_lt in Hlen. rewrite Hlen.
      do 2 eexists. split; [reflexivity |]. split.
      * new_events. repeat constructor.
      * intros _ _ _ _. split; [done |]. by new_events.
  - do 2 eexists. split; [reflexivity |]. split.
    + new_events. repeat constructor.
    + intros P' w1' [=].
Qed.

Lemma errUnmarshal_mentions_decrypt (err : goerr) :
  Contains (emsg (errUnmarshal err)) "decrypt" = true.
Proof. reflexivity. Qed.

Lemma errUnmarshal_not_exist (err : goerr) : os_IsNotExist (errUnmarshal err) = false.
Proof. reflexivity. Qed.

(** C3 (amended). When [load] fails at start-up with the "too short or
    corrupted" error, [Init] returns that error and the start-up hook of the
    command line returns it too, which ends the process; when [load] fails
    because the decrypted payload does not deserialize, [Init] and the hook
    return no error and the store is left locked. *)
Theorem init_corrupt_file (w w1 : World) (s s1 : Store) (exePath : string) (e : goerr) :
  executable w = Ok exePath →
  load w (with_path (filepath_Join (filepath_Dir exePath) (DataFileName config)) s)
    = (Some e, s1, w1) →
  (e = errTooShort →
     Init w s = (Some e, s1, w1) ∧ PersistentPreRunE w s = (Some e, s1, w1))
  ∧ (∀ err, e = errUnmarshal err →
     Init w s = (None, lock s1, w1)
     ∧ PersistentPreRunE w s = (None, lock s1, w1)
     ∧ IsUnlocked (lock s1) = false).
Proof.
  intros Hx Hl. split.
  - intros ->. unfold PersistentPreRunE, Init. by rewrite Hx, Hl.
  - intros err ->. unfold PersistentPreRunE, Init. rewrite Hx, Hl.
    rewrite errUnmarshal_not_exist, errUnmarshal_mentions_decrypt.
    by rewrite orb_true_r.
Qed.

Ltac no_such_event H :=
  repeat (apply elem_of_cons in H as [H | H]; [discriminate H |]);
  apply elem_of_nil in H.

Ltac frame_passphrase :=
  repeat match goal with
  | H : getPassphrase _ _ = (_, _) |- _ =>
      apply getPassphrase_frame in H; destruct H as [? ->]
  end.

Lemma events_since_trace (w0 w w' : World) :
  trace w0 = trace w → events_since w0 w' = events_since w w'.
Proof. unfold events_since. by intros ->. Qed.

(** What [Save] does before it serializes: it may read the terminal and set
    [passphraseProvided], nothing else. *)
Lemma Save_require_world (w w1 : World) (s s1 : Store) (oe : option goerr) :
  Save_require w s = (oe, s1, w1) →
  (∃ t, w1 = with_tty t w)
  ∧ satellitesData s1 = satellitesData s ∧ dataPath s1 = dataPath s
  ∧ sessionKey s1 = sessionKey s.
Proof.
  unfold Save_require. destruct (passphraseProvided s); simpl.
  - intros [= <- <- <-]. split; [exists (tty w); by rewrite with_tty_self | done].
  - destruct (getPassphrase true w) as [[P | e] w2] eqn:Hg.
    + destruct (String.eqb P ""); intros [= <- <- <-];
        (split; [by eapply getPassphrase_frame | done]).
    + intros [= <- <- <-]. split; [by eapply getPassphrase_frame | done].
Qed.

Lemma Save_passphrase_frame (w w1 : World) (r : result string) :
  Save_passphrase w = (r, w1) → ∃ t, w1 = with_tty t w.
Proof.
  unfold Save_passphrase. destruct (String.eqb (env_passphrase w) "").
  - destruct (getPassphrase false w) as [[P | e] w2] eqn:Hg.
    + destruct (String.eqb P ""); intros [= <- <-]; by eapply getPassphrase_frame.
    + intros [= <- <-]; by eapply getPassphrase_frame.
  - intros [= <- <-]. exists (tty w). by rewrite with_tty_self.
Qed.

Lemma rand_ReadFull_world (n : nat) (w w1 : World) (r : result (list byte)) :
  rand_ReadFull n w = (r, w1) →
  ∃ rest, w1 = with_rand rest (log (EvRandRead n) w).
Proof. unfold rand_ReadFull. case_match; intros [= <- <-]; by eexists. Qed.

Lemma crypto_Encrypt_world (pt key : list byte) (w w1 : World) (r : result (list byte)) :
  crypto_Encrypt pt key w = (r, w1) →
  ∃ rest, w1 = with_rand rest
                 (log (EvRandRead (AESGCMNonceSize config)) (log (EvEncrypt pt key) w)).
Proof.
  unfold crypto_Encrypt.
  destruct (rand_ReadFull _ _) as [rn w2] eqn:Hn.
  apply rand_ReadFull_world in Hn as [rest ->].
  repeat case_match; intros [= <- <-]; by eexists.
Qed.

(** [Save] never reads the session key it finds. *)
Lemma Save_require_key (w : World) (s : Store) (k0 : list byte) :
  Save_require w (with_key k0 s)
  = (let '(e, s1, w1) := Save_require w s in (e, with_key k0 s1, w1)).
Proof.
  unfold Save_require. simpl. destruct (passphraseProvided s); simpl; [done |].
  destruct (getPassphrase true w) as [[P | e] w1]; [| done].
  by destruct (String.eqb P "").
Qed.

Lemma Save_write_key (P : string) (w w' : World) (s s' : Store) (k0 : list byte) :
  Save_write P w s = (None, s', w') → Save_write P w (with_key k0 s) = (None, s', w').
Proof.
  unfold Save_write. simpl.
  destruct (json_MarshalIndent (satellitesData s)); [| done].
  destruct (rand_ReadFull _ w) as [[salt | ?] w1]; [| done].
  destruct (DeriveKeyWithArgon2id P salt) as [key | ?]; [| done].
  destruct (crypto_Encrypt _ key _) as [[nct | ?] w3]; [| done].
  destruct (ioutil_WriteFile _ _ w3) as [[?|] w4]; [done |].
  destruct (os_Rename _ _ w4) as [[?|] w5]; [by destruct (os_Remove _ _) |].
  by intros [= <- <-].
Qed.

Lemma Save_ignores_sessionKey (w w' : World) (s s' : Store) (k0 : list byte) :
  Save w s = (None, s', w') → Save w (with_key k0 s) = (None, s', w').
Proof.
  unfold Save. rewrite Save_require_key.
  destruct (Save_require w s) as [[[e|] s1] w1]; [done |].
  destruct (Save_passphrase w1) as [[P | e] w2]; [| done].
  apply Save_write_key.
Qed.

Lemma Save_require_frame (w w1 : World) (s s1 : Store) :
  Save_require w s = (None, s1, w1) →
  (∃ t, w1 = with_tty t w) ∧ s1 = with_provided true s.
Proof.
  unfold Save_require. destruct (passphraseProvided s) eqn:Hp; simpl.
  - intros [= <- <-]. split; [exists (tty w); by rewrite with_tty_self |].
    destruct s; simpl in *; by subst.
  - destruct (getPassphrase true w) as [[P | e] w2] eqn:Hg; [| done].
    destruct (String.eqb P ""); [done |]. intros [= <- <-].
    split; [by eapply getPassphrase_frame | done].
Qed.

(** What a successful [Save] has done, from serialization on. *)
Lemma Save_write_ok (P : string) (w w' : World) (s s' : Store) :
  Save_write P w s = (None, s', w') →
  ∃ plaintext key sealed,
    let salt := take (Argon2SaltSize config) (rand_reader w) in
    let nonce := take (AESGCMNonceSize config)
                      (drop (Argon2SaltSize config) (rand_reader w)) in
    let tmp := dataPath s +:+ ".tmp" in
    json_MarshalIndent (satellitesData s) = Ok plaintext
    ∧ (Argon2SaltSize config + AESGCMNonceSize config ≤ length (rand_reader w))%nat
    ∧ DeriveKeyWithArgon2id P salt = Ok key
    ∧ gcm_seal key nonce plaintext = Ok sealed
    ∧ write_fault w = None ∧ rename_fault w = None
    ∧ s' = with_key key s
    ∧ files w' = <[dataPath s := Ok (salt ++ nonce ++ sealed)]>
                   (delete tmp (<[tmp := Ok (salt ++ nonce ++ sealed)]> (files w)))
    ∧ rand_reader w'
      = drop (AESGCMNonceSize config) (drop (Argon2SaltSize config) (rand_reader w))
    ∧ trace w' = [EvRename tmp (dataPath s);
                  EvWriteFile tmp (salt ++ nonce ++ sealed);
                  EvRandRead (AESGCMNonceSize config);
                  EvEncrypt plaintext key;
                  EvDeriveKey P salt;
                  EvRandRead (Argon2SaltSize config)] ++ trace w
    ∧ env_passphrase w' = env_passphrase w
    ∧ stdin_terminal w' = stdin_terminal w ∧ tty w' = tty w
    ∧ executable w' = executable w.
Proof.
  unfold Save_write.
  destruct (json_MarshalIndent _) as [pt | ?]; [| done].
  unfold rand_ReadFull at 1.
  destruct (_ <=? _)%nat eqn:Hs; [| done]. apply Nat.leb_le in Hs.
  unfold crypto_DeriveKeyWithArgon2id.
  destruct (DeriveKeyWithArgon2id P _) as [key | ?] eqn:Hkey; [| done].
  unfold crypto_Encrypt, rand_ReadFull. simpl (rand_reader _).
  destruct (_ <=? _)%nat eqn:Hn; [| done]. apply Nat.leb_le in Hn.
  rewrite length_drop in Hn.
  destruct (gcm_seal key _ pt) as [sealed | ?] eqn:Hseal; [| done].
  unfold ioutil_WriteFile. simpl (write_fault _).
  destruct (write_fault w) eqn:Hw; [done |].
  unfold os_Rename. simpl (rename_fault _). simpl (files _).
  destruct (rename_fault w) eqn:Hr; [by destruct (os_Remove _ _) |].
  rewrite lookup_insert_eq. intros [= <- <-].
  exists pt, key, sealed. simpl. split_and!; try done. lia.
Qed.

(** C5. A call of [Save] that succeeds has drawn [Argon2SaltSize] bytes from
    the random source as its salt and the next [AESGCMNonceSize] bytes as
    nonce, none of which the source gives again; it has derived the key from
    the passphrase obtained in this call and that salt, sealed the
    serialized collection under that key, written [salt ++ nonce ++ sealed]
    to the data path, and left that key as [sessionKey]; and the session key
    found at entry has no influence on any of it. *)
Theorem save_fresh_salt_and_key (w w' : World) (s s' : Store) :
  Save w s = (None, s', w') →
  ∃ (P : string) (salt nonce key plaintext sealed : list byte),
    salt = take (Argon2SaltSize config) (rand_reader w)
    ∧ length salt = Argon2SaltSize config
    ∧ nonce = take (AESGCMNonceSize config) (drop (Argon2SaltSize config) (rand_reader w))
    ∧ rand_reader w'
      = drop (AESGCMNonceSize config) (drop (Argon2SaltSize config) (rand_reader w))
    ∧ (∃ s1 w1 w2, Save_require w s = (None, s1, w1) ∧ Save_passphrase w1 = (Ok P, w2))
    ∧ DeriveKeyWithArgon2id P salt = Ok key
    ∧ EvDeriveKey P salt ∈ events_since w w'
    ∧ json_MarshalIndent (satellitesData s) = Ok plaintext
    ∧ gcm_seal key nonce plaintext = Ok sealed
    ∧ files w' !! dataPath s = Some (Ok (salt ++ nonce ++ sealed))
    ∧ sessionKey s' = key
    ∧ ∀ k0, Save w (with_key k0 s) = (None, s', w').
Proof.
  intros E. assert (Hk := λ k0, Save_ignores_sessionKey w w' s s' k0 E).
  unfold Save in E.
  destruct (Save_require w s) as [[e1 s1] w1] eqn:Hreq.
  destruct e1; [done |].
  destruct (Save_passphrase w1) as [r2 w2] eqn:Hpass.
  destruct r2 as [P | ?]; [| done].
  exists P.
  destruct (Save_require_frame _ _ _ _ Hreq) as [[t1 ->] ->].
  destruct (Save_passphrase_frame _ _ _ Hpass) as [t2 ->].
  apply Save_write_ok in E
    as (pt & key & sealed & Hm & Hlen & Hkey & Hseal & _ & _ & -> & Hf & Hrand & Htr & _).
  simpl in Hm, Hlen, Hkey, Hseal, Hf, Hrand.
  do 2 eexists. exists key, pt, sealed.
  split_and!; try done.
  - rewrite length_take. lia.
  - by exists (with_provided true s), (with_tty t1 w), (with_tty t2 (with_tty t1 w)).
  - rewrite (events_since_app w w' _ Htr). simpl. set_solver.
  - rewrite Hf. apply lookup_insert_eq.
Qed.

Lemma Save_require_env (w : World) (s : Store) :
  env_passphrase w ≠ "" → Save_require w s = (None, with_provided true s, w).
Proof.
  intros Hne. unfold Save_require. destruct (passphraseProvided s) eqn:Hp; simpl.
  - do 2 f_equal. destruct s; simpl in *; by subst.
  - rewrite getPassphrase_env by done.
    by destruct (String.eqb_spec (env_passphrase w) "").
Qed.

Lemma Save_passphrase_env (w : World) :
  env_passphrase w ≠ "" → Save_passphrase w = (Ok (env_passphrase w), w).
Proof.
  intros Hne. unfold Save_passphrase.
  by destruct (String.eqb_spec (env_passphrase w) "").
Qed.

(** [Save], from serialization on, goes through when the collection
    serializes, the random source has salt and nonce to give, the key
    derivation and the cipher accept them, and the file system takes the
    write and the rename. *)
Lemma Save_write_succeeds (P : string) (w : World) (s : Store)
    (plaintext key sealed : list byte) :
  let salt := take (Argon2SaltSize config) (rand_reader w) in
  let nonce := take (AESGCMNonceSize config)
                    (drop (Argon2SaltSize config) (rand_reader w)) in
  json_MarshalIndent (satellitesData s) = Ok plaintext →
  (Argon2SaltSize config + AESGCMNonceSize config ≤ length (rand_reader w))%nat →
  DeriveKeyWithArgon2id P salt = Ok key →
  gcm_seal key nonce plaintext = Ok sealed →
  write_fault w = None → rename_fault w = None →
  ∃ w', Save_write P w s = (None, with_key key s, w').
Proof.
  intros salt nonce Hm Hlen Hkey Hseal Hw Hr. unfold Save_write. rewrite Hm.
  unfold rand_ReadFull at 1.
  rewrite (proj2 (Nat.leb_le _ _)) by lia.
  unfold crypto_DeriveKeyWithArgon2id. fold salt. rewrite Hkey.
  unfold crypto_Encrypt, rand_ReadFull. simpl (rand_reader _).
  rewrite (proj2 (Nat.leb_le _ _)) by (rewrite length_drop; lia).
  fold nonce. rewrite Hseal.
  unfold ioutil_WriteFile. simpl (write_fault _). rewrite Hw.
  unfold os_Rename. simpl (rename_fault _). rewrite Hr. simpl (files _).
  rewrite lookup_insert_eq. by eexists.
Qed.

(** [load] of a file [salt ++ nonce ++ sealed] that opens under the key
    derived from the passphrase in the environment. *)
Lemma load_existing_ok (w : World) (s : Store) (salt nonce sealed key plaintext : list byte)
    (C : gmap string Satellite) :
  files w !! dataPath s = Some (Ok (salt ++ nonce ++ sealed)) →
  length salt = Argon2SaltSize config →
  length nonce = AESGCMNonceSize config →
  env_passphrase w ≠ "" →
  DeriveKeyWithArgon2id (env_passphrase w) salt = Ok key →
  gcm_open key nonce sealed = Ok plaintext →
  json_Unmarshal plaintext = Ok C →
  ∃ w', load w s = (None, with_data C (with_key key (with_provided true s)), w').
Proof.
  intros Hf Hs Hn Hne Hkey Hopen Hun. unfold load, os_Stat_exists.
  rewrite Hf. rewrite bool_decide_eq_true_2 by eauto. simpl negb.
  rewrite getPassphrase_env by done. simpl (env_passphrase _).
  destruct (String.eqb_spec (env_passphrase w) ""); [done |].
  unfold ioutil_ReadFile. simpl (files _). rewrite Hf.
  rewrite (proj2 (Nat.ltb_ge _ _)) by (rewrite !length_app; lia).
  unfold crypto_DeriveKeyWithArgon2id, crypto_Decrypt.
  rewrite <- Hs, take_app_length, drop_app_length, Hkey.
  rewrite <- Hn, take_app_length, drop_app_length, Hopen, Hun.
  by eexists.
Qed.

(** [load] of a file [salt ++ nonce ++ sealed] that opens under the key
    derived from the passphrase the provider returns. *)
Lemma load_existing_provided (w w1 : World) (s : Store) (P : string)
    (salt nonce sealed key plaintext : list byte) (C : gmap string Satellite) :
  files w !! dataPath s = Some (Ok (salt ++ nonce ++ sealed)) →
  length salt = Argon2SaltSize config →
  length nonce = AESGCMNonceSize config →
  getPassphrase false (log (EvStat (dataPath s)) w) = (Ok P, w1) →
  P ≠ "" →
  DeriveKeyWithArgon2id P salt = Ok key →
  gcm_open key nonce sealed = Ok plaintext →
  json_Unmarshal plaintext = Ok C →
  ∃ w', load w s = (None, with_data C (with_key key (with_provided true s)), w').
Proof.
  intros Hf Hs Hn Hp Hne Hkey Hopen Hun. unfold load, os_Stat_exists.
  rewrite Hf. rewrite bool_decide_eq_true_2 by eauto. simpl negb. rewrite Hp.
  destruct (getPassphrase_frame _ _ _ _ Hp) as [t ->].
  destruct (String.eqb_spec P ""); [done |].
  unfold ioutil_ReadFile. simpl (files _). rewrite Hf.
  rewrite (proj2 (Nat.ltb_ge _ _)) by (rewrite !length_app; lia).
  unfold crypto_DeriveKeyWithArgon2id, crypto_Decrypt.
  rewrite <- Hs, take_app_length, drop_app_length, Hkey.
  rewrite <- Hn, take_app_length, drop_app_length, Hopen, Hun.
  by eexists.
Qed.

Lemma Save_passphrase_nonempty (w w1 : World) (P : string) :
  Save_passphrase w = (Ok P, w1) → P ≠ "".
Proof.
  unfold Save_passphrase.
  destruct (String.eqb_spec (env_passphrase w) "") as [He | He].
  - destruct (getPassphrase false w) as [[P' | ?] w2]; [| done].
    destruct (String.eqb_spec P' ""); [done |]. by intros [= <- <-].
  - by intros [= <- <-].
Qed.

(** [Save], from serialization on, when every step before the rename goes
    through and the rename fails. *)
Lemma Save_write_rename_fails (P : string) (w : World) (s : Store)
    (plaintext key sealed : list byte) (err : goerr) :
  let salt := take (Argon2SaltSize config) (rand_reader w) in
  let nonce := take (AESGCMNonceSize config)
                    (drop (Argon2SaltSize config) (rand_reader w)) in
  let tmp := dataPath s +:+ ".tmp" in
  json_MarshalIndent (satellitesData s) = Ok plaintext →
  (Argon2SaltSize config + AESGCMNonceSize config ≤ length (rand_reader w))%nat →
  DeriveKeyWithArgon2id P salt = Ok key →
  gcm_seal key nonce plaintext = Ok sealed →
  write_fault w = None →
  rename_fault w = Some err →
  ∃ w', Save_write P w s = (Some (errCommit tmp (dataPath s) err), with_key key s, w')
    ∧ files w' = match remove_fault w with
                 | Some _ => <[tmp := Ok (salt ++ nonce ++ sealed)]> (files w)
                 | None => delete tmp (<[tmp := Ok (salt ++ nonce ++ sealed)]> (files w))
                 end
    ∧ trace w' = [EvRemove tmp; EvRename tmp (dataPath s);
                  EvWriteFile tmp (salt ++ nonce ++ sealed);
                  EvRandRead (AESGCMNonceSize config); EvEncrypt plaintext key;
                  EvDeriveKey P salt; EvRandRead (Argon2SaltSize config)] ++ trace w.
Proof.
  intros salt nonce tmp Hm Hlen Hkey Hseal Hw Hr. unfold Save_write. rewrite Hm.
  unfold rand_ReadFull at 1.
  rewrite (proj2 (Nat.leb_le _ _)) by lia.
  unfold crypto_DeriveKeyWithArgon2id. fold salt. rewrite Hkey.
  unfold crypto_Encrypt, rand_ReadFull. simpl (rand_reader _).
  rewrite (proj2 (Nat.leb_le _ _)) by (rewrite length_drop; lia).
  fold nonce. rewrite Hseal.
  unfold ioutil_WriteFile. simpl (write_fault _). rewrite Hw.
  unfold os_Rename. simpl (rename_fault _). rewrite Hr.
  unfold os_Remove. simpl (remove_fault _). simpl (files _). fold tmp.
  rewrite lookup_insert_eq.
  destruct (remove_fault w); eexists; (split; [reflexivity |]); by split.
Qed.

(** C4 (amended). Let [Save] have obtained a passphrase, serialized the
    collection, drawn salt and nonce, derived the key, sealed the payload and
    written the temporary file, and let [os.Rename] then fail.  Then [Save]
    returns the "failed to commit" error wrapping the error of the rename;
    what the data path held, if anything, is as it was; the calls [Save]
    made end with the rename and, after it, [os.Remove] of the temporary
    file; and the temporary file is gone when that removal succeeds, and
    still there, holding the new ciphertext, when the removal fails, since
    [Save] discards the error of [os.Remove]. *)
Theorem save_rename_failure (w w1 w2 : World) (s s1 : Store) (P : string)
    (plaintext key sealed : list byte) (err : goerr) :
  let salt := take (Argon2SaltSize config) (rand_reader w) in
  let nonce := take (AESGCMNonceSize config)
                    (drop (Argon2SaltSize config) (rand_reader w)) in
  let tmp := dataPath s +:+ ".tmp" in
  Save_require w s = (None, s1, w1) →
  Save_passphrase w1 = (Ok P, w2) →
  json_MarshalIndent (satellitesData s) = Ok plaintext →
  (Argon2SaltSize config + AESGCMNonceSize config ≤ length (rand_reader w))%nat →
  DeriveKeyWithArgon2id P salt = Ok key →
  gcm_seal key nonce plaintext = Ok sealed →
  write_fault w = None →
  rename_fault w = Some err →
  ∃ s' w',
    Save w s = (Some (errCommit tmp (dataPath s) err), s', w')
    ∧ files w' !! dataPath s = files w !! dataPath s
    ∧ events_since w w'
      = [EvRemove tmp; EvRename tmp (dataPath s);
         EvWriteFile tmp (salt ++ nonce ++ sealed);
         EvRandRead (AESGCMNonceSize config); EvEncrypt plaintext key;
         EvDeriveKey P salt; EvRandRead (Argon2SaltSize config)]
    ∧ (remove_fault w = None → files w' !! tmp = None)
    ∧ (is_Some (remove_fault w) → files w' !! tmp = Some (Ok (salt ++ nonce ++ sealed))).
Proof.
  intros salt nonce tmp Hreq Hpass Hm Hlen Hkey Hseal Hw Hr.
  destruct (Save_require_frame _ _ _ _ Hreq) as [[t1 ->] ->].
  destruct (Save_passphrase_frame _ _ _ Hpass) as [t2 ->].
  destruct (Save_write_rename_fails P (with_tty t2 (with_tty t1 w))
              (with_provided true s) plaintext key sealed err Hm Hlen Hkey Hseal Hw Hr)
    as (w' & E & Hf & Htr).
  simpl in E, Hf, Htr. fold salt nonce tmp in E, Hf, Htr.
  exists (with_key key (with_provided true s)), w'.
  split; [unfold Save; by rewrite Hreq, Hpass |].
  rewrite Hf. split_and!.
  - destruct (remove_fault w);
      by rewrite ?lookup_delete_ne, lookup_insert_ne by apply temp_path_fresh.
  - by apply events_since_app.
  - intros ->. apply lookup_delete_eq.
  - intros [e ->]. apply lookup_insert_eq.
Qed.

(** C2 (amended). Let [Save] obtain the passphrase [P] from the provider,
    the environment variable or the terminal (it is then not empty); let
    the collection serialize to a payload that deserializes back to it; let
    the random source give a salt and a nonce, whatever their values; let
    the key derivation accept [P] with that salt, and the cipher seal the
    payload under that key and nonce and open what it sealed; and let the
    write and the rename go through.  Then [Save] succeeds, and [load] of
    the file it wrote, by a process whose provider returns the same [P],
    succeeds with the same collection, [passphraseProvided] set and the key
    of that save as session key. *)
Theorem save_load_roundtrip (w w1 w2 wl wl1 : World) (s s1 s0 : Store) (P : string)
    (plaintext key sealed : list byte) :
  let salt := take (Argon2SaltSize config) (rand_reader w) in
  let nonce := take (AESGCMNonceSize config)
                    (drop (Argon2SaltSize config) (rand_reader w)) in
  Save_require w s = (None, s1, w1) →
  Save_passphrase w1 = (Ok P, w2) →
  json_MarshalIndent (satellitesData s) = Ok plaintext →
  json_Unmarshal plaintext = Ok (satellitesData s) →
  (Argon2SaltSize config + AESGCMNonceSize config ≤ length (rand_reader w))%nat →
  DeriveKeyWithArgon2id P salt = Ok key →
  gcm_seal key nonce plaintext = Ok sealed →
  gcm_open key nonce sealed = Ok plaintext →
  write_fault w = None →
  rename_fault w = None →
  dataPath s0 = dataPath s →
  files wl !! dataPath s0 = files (snd (Save w s)) !! dataPath s →
  getPassphrase false (log (EvStat (dataPath s0)) wl) = (Ok P, wl1) →
  ∃ s' w' s'' w'',
    Save w s = (None, s', w')
    ∧ load wl s0 = (None, s'', w'')
    ∧ satellitesData s'' = satellitesData s
    ∧ passphraseProvided s'' = true
    ∧ sessionKey s'' = sessionKey s'.
Proof.
  intros salt nonce Hreq Hpass Hm Hun Hlen Hkey Hsl Hopen Hw Hr Hpath Hfl Hgl.
  assert (Hne := Save_passphrase_nonempty _ _ _ Hpass).
  destruct (Save_require_frame _ _ _ _ Hreq) as [[t1 ->] ->].
  destruct (Save_passphrase_frame _ _ _ Hpass) as [t2 ->].
  destruct (Save_write_succeeds P (with_tty t2 (with_tty t1 w)) (with_provided true s)
              plaintext key sealed Hm Hlen Hkey Hsl Hw Hr) as [w' E].
  assert (HS : Save w s = (None, with_key key (with_provided true s), w')).
  { unfold Save. by rewrite Hreq, Hpass. }
  apply Save_write_ok in E
    as (pt & key' & sealed' & Hm' & _ & Hkey' & Hsl' & _ & _ & _ & Hf & _).
  simpl in Hm', Hkey', Hsl', Hf. fold salt nonce in Hkey', Hsl', Hf.
  rewrite Hm in Hm'. injection Hm' as <-.
  rewrite Hkey in Hkey'. injection Hkey' as <-.
  rewrite Hsl in Hsl'. injection Hsl' as <-.
  rewrite HS in Hfl. simpl in Hfl. rewrite Hf, lookup_insert_eq in Hfl.
  destruct (load_existing_provided wl wl1 s0 P salt nonce sealed key plaintext
              (satellitesData s)) as [w'' HL]; try done.
  - unfold salt. rewrite length_take. lia.
  - unfold nonce. rewrite length_take, length_drop. lia.
  - do 4 eexists. split; [exact HS |]. split; [exact HL |]. done.
Qed.

End Properties.

(** ** The properties on the sample instance *)

#[local] Existing Instance Sample.externals.

Lemma sample_open_seal (key nonce pt sealed : list byte) :
  Sample.seal key nonce pt = Ok sealed → Sample.open key nonce sealed = Ok pt.
Proof.
  unfold Sample.seal, Sample.open. intros [= <-].
  rewrite length_app, Nat.add_sub.
  rewrite drop_app_length, bool_decide_eq_true_2 by done.
  by rewrite take_app_length, rev_involutive.
Qed.

Lemma load_new_store_stays_locked_witness :
  ∃ s', load Sample.world0 (with_path Sample.path Sample.fresh)
        = (None, s', log (EvStat Sample.path) Sample.world0)
    ∧ passphraseProvided s' = true
    ∧ satellitesData s' = ∅
    ∧ sessionKey s' = []
    ∧ IsUnlocked s' = false
    ∧ ∀ sat, AddSatellite sat s' = (Some errLockedAdd, s').
Proof.
  apply (load_new_store_stays_locked Sample.world0 _
           (with_path Sample.path Sample.fresh) "correct-horse");
    [reflexivity | reflexivity | discriminate].
Defined.

Lemma save_load_roundtrip_counterexample :
  fst (fst (Save (Sample.world_prompt [Ok ""]) Sample.unlocked1))
  = Some (errReconfirm None)
  ∧ files (snd (Save (Sample.world_prompt [Ok ""]) Sample.unlocked1))
    = ∅.
Proof. split; reflexivity. Qed.

Lemma save_load_roundtrip_witness :
  let w := Sample.world_prompt [Ok "typed"; Ok "typed"] in
  ∃ s' w' s'' w'',
    Save w Sample.unlocked1 = (None, s', w')
    ∧ load (snd (Save w Sample.unlocked1)) (with_path Sample.path Sample.fresh)
      = (None, s'', w'')
    ∧ satellitesData s'' = {[ "SAT-1" := Sample.sat1 ]}
    ∧ passphraseProvided s'' = true
    ∧ sessionKey s'' = sessionKey s'.
Proof.
  intros w.
  eapply (save_load_roundtrip w w (with_tty [Ok "typed"] w)
            (snd (Save w Sample.unlocked1)) _ Sample.unlocked1 Sample.unlocked1
            (with_path Sample.path Sample.fresh) "typed" Sample.payload1).
  - reflexivity.
  - reflexivity.
  - reflexivity.
  - vm_compute. reflexivity.
  - simpl. lia.
  - reflexivity.
  - reflexivity.
  - apply sample_open_seal. reflexivity.
  - reflexivity.
  - reflexivity.
  - reflexivity.
  - reflexivity.
  - vm_compute. reflexivity.
Defined.

Lemma init_corrupt_file_counterexample :
  fst (fst (Init Sample.world_short Sample.fresh)) = Some errTooShort
  ∧ fst (fst (PersistentPreRunE Sample.world_short Sample.fresh))
    = Some errTooShort.
Proof. split; vm_compute; reflexivity. Qed.

Lemma init_corrupt_file_witness :
  (errUnmarshal Sample.errSyntax = errTooShort →
     Init Sample.world_garbled Sample.fresh
     = (Some (errUnmarshal Sample.errSyntax), lock (with_path Sample.path Sample.fresh),
        snd (load Sample.world_garbled
               (with_path Sample.path Sample.fresh)))
     ∧ PersistentPreRunE Sample.world_garbled Sample.fresh
       = (Some (errUnmarshal Sample.errSyntax),
          lock (with_path Sample.path Sample.fresh),
          snd (load Sample.world_garbled
                 (with_path Sample.path Sample.fresh))))
  ∧ (∀ err, errUnmarshal Sample.errSyntax = errUnmarshal err →
     Init Sample.world_garbled Sample.fresh
     = (None, lock (lock (with_path Sample.path Sample.fresh)),
        snd (load Sample.world_garbled
               (with_path Sample.path Sample.fresh)))
     ∧ PersistentPreRunE Sample.world_garbled Sample.fresh
       = (None, lock (lock (with_path Sample.path Sample.fresh)),
          snd (load Sample.world_garbled
                 (with_path Sample.path Sample.fresh)))
     ∧ IsUnlocked (lock (lock (with_path Sample.path Sample.fresh))) = false).
Proof.
  apply (init_corrupt_file Sample.world_garbled _ Sample.fresh _
           "/opt/satcli/satcli").
  - reflexivity.
  - vm_compute. reflexivity.
Defined.

Lemma save_rename_failure_counterexample :
  rename_fault Sample.world_stuck_fast = Some Sample.errDenied
  ∧ files Sample.world_stuck_fast !! (Sample.path +:+ ".tmp") = None
  ∧ fst (fst (Save Sample.world_stuck_fast Sample.unlocked2))
    = Some (errCommit (Sample.path +:+ ".tmp") Sample.path Sample.errDenied)
  ∧ is_Some (files (snd (Save Sample.world_stuck_fast Sample.unlocked2))
               !! (Sample.path +:+ ".tmp")).
Proof.
  split; [reflexivity |]. split; [vm_compute; reflexivity |].
  split; [vm_compute; reflexivity |]. vm_compute. by eexists.
Qed.

Lemma save_rename_failure_witness :
  let w := Sample.world_stuck in
  let tmp := Sample.path +:+ ".tmp" in
  ∃ s' w',
    Save w Sample.unlocked2 = (Some (errCommit tmp Sample.path Sample.errDenied), s', w')
    ∧ is_Some (files w !! Sample.path)
    ∧ files w' !! Sample.path = files w !! Sample.path
    ∧ head (events_since w w') = Some (EvRemove tmp)
    ∧ EvRename tmp Sample.path ∈ events_since w w'
    ∧ files w' !! tmp = None.
Proof.
  intros w tmp.
  edestruct (save_rename_failure w w w Sample.unlocked2 Sample.unlocked2
               "correct-horse") as (s' & w' & HS & Hf & Hev & Hgone & _).
  - reflexivity.
  - reflexivity.
  - reflexivity.
  - vm_compute. lia.
  - reflexivity.
  - reflexivity.
  - reflexivity.
  - reflexivity.
  - exists s', w'. split; [exact HS |]. split; [vm_compute; by eexists |].
    split; [exact Hf |]. rewrite Hev. split; [reflexivity |].
    split; [apply elem_of_cons; right; apply elem_of_cons; by left |].
    by apply Hgone.
Defined.

Lemma save_fresh_salt_and_key_witness :
  let r := Save Sample.world0 Sample.unlocked1 in
  ∃ (P : string) (salt nonce key plaintext sealed : list byte),
    salt = Sample.salt0
    ∧ length salt = 16
    ∧ nonce = Sample.nonce0
    ∧ rand_reader (snd r) = repeat x11 40
    ∧ (∃ s1 w1 w2,
         Save_require Sample.world0 Sample.unlocked1 = (None, s1, w1)
         ∧ Save_passphrase w1 = (Ok P, w2))
    ∧ Sample.derive P salt = Ok key
    ∧ EvDeriveKey P salt ∈ events_since Sample.world0 (snd r)
    ∧ Sample.marshal {[ "SAT-1" := Sample.sat1 ]} = Ok plaintext
    ∧ Sample.seal key nonce plaintext = Ok sealed
    ∧ files (snd r) !! Sample.path = Some (Ok (salt ++ nonce ++ sealed))
    ∧ sessionKey (snd (fst r)) = key
    ∧ ∀ k0, Save Sample.world0 (with_key k0 Sample.unlocked1)
            = (None, snd (fst r), snd r).
Proof.
  intros r.
  assert (E : Save Sample.world0 Sample.unlocked1 = (None, snd (fst r), snd r))
    by (vm_compute; reflexivity).
  exact (save_fresh_salt_and_key Sample.world0 (snd r) Sample.unlocked1 (snd (fst r)) E).
Defined.

Lemma load_truncated_witness :
  ∃ e w', load Sample.world_short (with_path Sample.path Sample.fresh)
          = (Some e, lock (with_path Sample.path Sample.fresh), w')
    ∧ Forall (λ ev, is_crypto ev = false) (events_since Sample.world_short w')
    ∧ ∀ P w1,
        getPassphrase false (log (EvStat Sample.path) Sample.world_short)
        = (Ok P, w1) →
        P ≠ "" →
        e = errTooShort
        ∧ events_since Sample.world_short w' = [EvReadFile Sample.path; EvStat Sample.path].
Proof.
  apply (load_truncated Sample.world_short
           (with_path Sample.path Sample.fresh) [x01; x02; x03]).
  - reflexivity.
  - simpl. lia.
Defined.

Lemma delete_absent_witness :
  DeleteSatellite "SAT-2" Sample.unlocked1
  = (Some (errNotFound "SAT-2"), Sample.unlocked1).
Proof.
  apply (delete_absent Sample.unlocked1 "SAT-2"); reflexivity.
Defined.

Lemma put_upsert_witness :
  ∃ s', AddSatellite Sample.sat1 Sample.unlocked1 = (None, s')
    ∧ satellitesData s' !! "SAT-1" = Some Sample.sat1
    ∧ (∀ name, name ≠ "SAT-1" →
         satellitesData s' !! name = satellitesData Sample.unlocked1 !! name)
    ∧ NoDup (fst <$> map_to_list (satellitesData s'))
    ∧ dataPath s' = Sample.path ∧ passphraseProvided s' = true
    ∧ sessionKey s' = [x01].
Proof.
  apply (put_upsert Sample.unlocked1 Sample.sat1). reflexivity.
Defined.

Lemma load_error_locks_witness :
  let s := with_path Sample.path Sample.fresh in
  let s' := snd (fst (load Sample.world_short s)) in
  s' = lock s
  ∧ passphraseProvided s' = false ∧ sessionKey s' = [] ∧ IsUnlocked s' = false
  ∧ ((∃ passErr, errTooShort = errPassAcquisition passErr)
     ∨ errTooShort = errPassNotProvided (dataPath s)
     ∨ (∃ err, errTooShort = errReadFile (dataPath s) err)
     ∨ errTooShort = errTooShort
     ∨ (∃ keyErr, errTooShort = errKeyDerivationLoad keyErr)
     ∨ (∃ key nonce sealed, gcm_open key nonce sealed = Err errTooShort)
     ∨ (∃ err, errTooShort = errUnmarshal err)).
Proof.
  intros s s'.
  assert (E : load Sample.world_short s
              = (Some errTooShort, s', snd (load Sample.world_short s)))
    by (vm_compute; reflexivity).
  exact (load_error_locks Sample.world_short _ s s' errTooShort E).
Defined.

(** ** Further properties of the datastore *)

Lemma Contains_unfold (s substr : string) :
  Contains s substr
  = if String.prefix substr s then true
    else match s with EmptyString => false | String _ s' => Contains s' substr end.
Proof. by destruct s. Qed.

Lemma prefix_append_l (p a b : string) :
  String.prefix p a = true → String.prefix p (a +:+ b) = true.
Proof.
  revert a. induction p as [|c p IH]; intros a; [intros _; by destruct (a +:+ b) |].
  destruct a as [|c' a]; simpl; [done |].
  destruct (Ascii.ascii_dec c c'); [apply IH | done].
Qed.

Lemma Contains_append_l (a b substr : string) :
  Contains a substr = true → Contains (a +:+ b) substr = true.
Proof.
  induction a as [|c a IH].
  - rewrite (Contains_unfold ""), (Contains_unfold ("" +:+ b)).
    destruct (String.prefix substr "") eqn:Hp; [| done].
    intros _. by rewrite (prefix_append_l _ "" b Hp).
  - rewrite (Contains_unfold (String c a)), (Contains_unfold (String c a +:+ b)).
    destruct (String.prefix substr (String c a)) eqn:Hp.
    + intros _. by rewrite (prefix_append_l _ _ b Hp).
    + intros Ha. destruct (String.prefix substr (String c a +:+ b)); [done |].
      by apply IH.
Qed.

Lemma Contains_append_r (a b substr : string) :
  Contains b substr = true → Contains (a +:+ b) substr = true.
Proof.
  intros Hb. induction a as [|c a IH]; [done |].
  rewrite (Contains_unfold (String c a +:+ b)).
  destruct (String.prefix substr (String c a +:+ b)); [done | exact IH].
Qed.

Ltac frame_passphrase :=
  repeat match goal with
  | H : getPassphrase _ _ = (_, _) |- _ =>
      apply getPassphrase_frame in H; destruct H as [? ->]
  end.

Section MoreProperties.
Context `{ext : Externals}.

(** X1. Every error the passphrase provider returns has "passphrase" in its
    message, whatever the name of the environment variable and whatever the
    terminal reported. *)
Theorem getPassphrase_errors_mention_passphrase (b : bool) (w w' : World) (e : goerr) :
  getPassphrase b w = (Err e, w') →
  Contains (emsg e) "passphrase" = true ∧ os_IsNotExist e = false.
Proof.
  unfold getPassphrase, term_ReadPassword, errNoTerminal.
  intros E. repeat case_match; simplify_eq; split; try reflexivity.
  by apply Contains_append_r.
Qed.

(** X2. A passphrase the provider returns is the environment variable when
    that is non-empty, and then the terminal is not read at all; otherwise it
    is the first line typed at a terminal, and when confirmation was asked
    for and the line is not empty, the second line typed is the same and has
    been consumed too. *)
Theorem getPassphrase_ok_inv (b : bool) (w w' : World) (P : string) :
  getPassphrase b w = (Ok P, w') →
  (env_passphrase w ≠ "" ∧ P = env_passphrase w ∧ w' = w)
  ∨ (env_passphrase w = "" ∧ stdin_terminal w = true
     ∧ ∃ rest, tty w = Ok P :: rest
        ∧ if b && negb (String.eqb P "")
          then ∃ rest', rest = Ok P :: rest' ∧ w' = with_tty rest' w
          else w' = with_tty rest w).
Proof.
  unfold getPassphrase, term_ReadPassword. intros E.
  destruct (String.eqb_spec (env_passphrase w) "") as [He | He]; simpl in E.
  - right. split; [done |].
    destruct (stdin_terminal w); simpl in E; [| done]. split; [done |].
    destruct (tty w) as [|[l1 | ?] rest]; [done | | done].
    exists rest. destruct (b && negb (String.eqb l1 "")) eqn:Hb.
    + simpl in E. destruct rest as [|[l2 | ?] rest']; [done | | done].
      destruct (String.eqb_spec l1 l2) as [<- | ?]; simpl in E; [| done].
      injection E as <- <-. rewrite Hb. split; [done |]. by exists rest'.
    + injection E as <- <-. by rewrite Hb.
  - left. by injection E as <- <-.
Qed.

(** X3. Whatever it returns, [load] leaves the file system, the random
    source and the data path as they were, and the only calls it makes are
    the stat and the read of the data file, the key derivation and the
    decryption. *)
Theorem load_reads_only (w w' : World) (s s' : Store) (oe : option goerr) :
  load w s = (oe, s', w') →
  files w' = files w
  ∧ rand_reader w' = rand_reader w
  ∧ dataPath s' = dataPath s
  ∧ Forall (λ ev, is_read_only ev = true) (events_since w w').
Proof.
  unfold load, os_Stat_exists, ioutil_ReadFile, crypto_DeriveKeyWithArgon2id,
    crypto_Decrypt.
  intros E. repeat case_match; frame_passphrase; simplify_eq;
    (split_and!; [reflexivity.. |]); new_events; repeat constructor.
Qed.

Lemma load_no_file (w : World) (s : Store) :
  files w !! dataPath s = None →
  ∃ s' w', load w s = (None, s', w') ∧ IsUnlocked s' = false ∧ files w' = files w.
Proof.
  intros Hf. unfold load, os_Stat_exists. rewrite Hf.
  rewrite bool_decide_eq_false_2 by (by intros [? ?]). simpl.
  destruct (getPassphrase true _) as [[P | e] w1] eqn:Hp;
    apply getPassphrase_frame in Hp as [t ->].
  - destruct (String.eqb P ""); by do 2 eexists.
  - by do 2 eexists.
Qed.

(** X4. When the data file does not exist, [load] never fails, whatever the
    passphrase provider does: it returns no error, the collection is empty,
    the session key is empty and [IsUnlocked] is false, and nothing but the
    stat of the data path has been called. *)
Theorem load_missing_file (w : World) (s : Store) :
  files w !! dataPath s = None →
  ∃ s' w', load w s = (None, s', w')
    ∧ satellitesData s' = ∅ ∧ sessionKey s' = [] ∧ IsUnlocked s' = false
    ∧ events_since w w' = [EvStat (dataPath s)].
Proof.
  intros Hf. unfold load, os_Stat_exists. rewrite Hf.
  rewrite bool_decide_eq_false_2 by (by intros [? ?]). simpl.
  destruct (getPassphrase true _) as [[P | e] w1] eqn:Hp;
    apply getPassphrase_frame in Hp as [t ->].
  - destruct (String.eqb P ""); do 2 eexists;
      (split; [reflexivity |]); (split_and!; [reflexivity.. |]); by new_events.
  - do 2 eexists. split; [reflexivity |]. split_and!; [reflexivity.. |]. by new_events.
Qed.

(** X5. If [IsUnlocked] is true after [load], then [load] returned no error,
    the data file existed and was read, it was at least salt plus nonce
    long, it opened under the key derived from a non-empty passphrase and
    the salt at its head, that key is the session key, and the collection is
    what the opened payload deserializes to. *)
Theorem load_unlocked_inv (w w' : World) (s s' : Store) (oe : option goerr) :
  load w s = (oe, s', w') →
  IsUnlocked s' = true →
  oe = None
  ∧ ∃ (P : string) (data key plaintext : list byte),
      P ≠ ""
      ∧ files w !! dataPath s = Some (Ok data)
      ∧ (Argon2SaltSize config + AESGCMNonceSize config ≤ length data)%nat
      ∧ DeriveKeyWithArgon2id P (take (Argon2SaltSize config) data) = Ok key
      ∧ gcm_open key
          (take (AESGCMNonceSize config) (drop (Argon2SaltSize config) data))
          (drop (AESGCMNonceSize config) (drop (Argon2SaltSize config) data))
        = Ok plaintext
      ∧ json_Unmarshal plaintext = Ok (satellitesData s')
      ∧ sessionKey s' = key ∧ key ≠ [].
Proof.
  unfold load, os_Stat_exists, ioutil_ReadFile, crypto_DeriveKeyWithArgon2id,
    crypto_Decrypt.
  intros E. repeat case_match; frame_passphrase; simplify_eq; try done.
  intros Hu. split; [done |].
  repeat match goal with
  | H : (_ =? _)%string = false |- _ => apply String.eqb_neq in H
  | H : (_ <? _)%nat = false |- _ => apply Nat.ltb_ge in H
  end.
  simpl in *. do 4 eexists. split_and!; try eassumption; try reflexivity.
  intros ->. done.
Qed.

Lemma load_failure_store (w w' : World) (s s' : Store) (e : goerr) :
  load w s = (Some e, s', w') → s' = lock s.
Proof.
  unfold load, os_Stat_exists, crypto_DeriveKeyWithArgon2id, crypto_Decrypt.
  intros E. repeat case_match; by simplify_eq.
Qed.

(** X6. When the data file exists and the passphrase provider fails or
    returns the empty string, [Init] and the start-up hook return no error:
    the store is left locked, with the data path set, and the process goes
    on to the command. *)
Theorem Init_without_passphrase (w : World) (s : Store) (exePath : string) :
  let p := filepath_Join (filepath_Dir exePath) (DataFileName config) in
  executable w = Ok exePath →
  is_Some (files w !! p) →
  (∀ P w1, getPassphrase false (log (EvStat p) w) = (Ok P, w1) → P = "") →
  ∃ s' w', Init w s = (None, s', w')
    ∧ PersistentPreRunE w s = (None, s', w')
    ∧ IsUnlocked s' = false ∧ dataPath s' = p
    ∧ satellitesData s' = satellitesData s.
Proof.
  intros p Hx Hf Hp. unfold PersistentPreRunE, Init. rewrite Hx.
  unfold load, os_Stat_exists. simpl (dataPath _). fold p.
  rewrite bool_decide_eq_true_2 by done. simpl negb.
  destruct (getPassphrase false _) as [[P | e] w1] eqn:Hg.
  - rewrite (Hp P w1 eq_refl). simpl. do 2 eexists. by split_and!.
  - simpl. do 2 eexists. by split_and!.
Qed.

(** X7. Once [os.Executable] has succeeded, the start-up hook returns
    exactly what [Init] returns: the second screening of the error message
    in the hook never changes the outcome. *)
Theorem hook_agrees_with_Init (w : World) (s : Store) (exePath : string) :
  executable w = Ok exePath → PersistentPreRunE w s = Init w s.
Proof.
  intros Hx. unfold PersistentPreRunE, Init. rewrite Hx.
  destruct (load w _) as [[[err |] s1] w1]; [| done].
  destruct (os_IsNotExist err) eqn:Hn; [done |].
  destruct (Contains (emsg err) "passphrase") eqn:H1; [done |].
  destruct (Contains (emsg err) "decrypt") eqn:H2; [done |].
  simpl. by rewrite Hn, H1, H2.
Qed.

(** X8. If [Init] returns an error, then either [os.Executable] failed and
    neither the store nor the world was touched, or [load] failed with that
    very error, which [os.IsNotExist] does not recognise and whose message
    contains neither "passphrase" nor "decrypt"; in the second case the
    store is left locked. *)
Theorem Init_error_inv (w w' : World) (s s' : Store) (err : goerr) :
  Init w s = (Some err, s', w') →
  (∃ e0, executable w = Err e0 ∧ s' = s ∧ w' = w)
  ∨ (∃ exePath, executable w = Ok exePath
      ∧ load w (with_path (filepath_Join (filepath_Dir exePath) (DataFileName config)) s)
        = (Some err, s', w')
      ∧ os_IsNotExist err = false
      ∧ Contains (emsg err) "passphrase" = false
      ∧ Contains (emsg err) "decrypt" = false
      ∧ IsUnlocked s' = false).
Proof.
  unfold Init. destruct (executable w) as [exePath | e0] eqn:Hx.
  - destruct (load w _) as [[[e |] s1] w1] eqn:Hl; [| done].
    destruct (os_IsNotExist e) eqn:Hn; [done |].
    destruct (Contains (emsg e) "passphrase") eqn:H1; [done |].
    destruct (Contains (emsg e) "decrypt") eqn:H2; [done |].
    simpl. intros [= <- <- <-]. right. exists exePath. split_and!; try done.
    by rewrite (load_failure_store _ _ _ _ _ Hl).
  - intros [= <- <- <-]. left. by exists e0.
Qed.

(** X9. With no passphrase in the environment and no terminal, [Save]
    fails with an error about the passphrase and changes neither the store
    nor anything outside the process. *)
Theorem Save_without_provider (w : World) (s : Store) :
  env_passphrase w = "" →
  stdin_terminal w = false →
  ∃ e, Save w s = (Some e, s, w) ∧ Contains (emsg e) "passphrase" = true.
Proof.
  intros He Ht.
  assert (Hg : ∀ b, getPassphrase b w = (Err errNoTerminal, w)).
  { intros b. unfold getPassphrase. by rewrite He, Ht. }
  unfold Save, Save_require, Save_passphrase.
  destruct (passphraseProvided s); simpl.
  - rewrite He, Hg. simpl. eexists. split; reflexivity.
  - rewrite Hg. eexists. split; reflexivity.
Qed.

(** Closes a case of [Save_write_effects]: the store fields, the files
    other than the two paths, and what the calls made say. *)
Ltac event_cases Hin :=
  repeat (apply elem_of_cons in Hin as [Hin | Hin];
          [first [discriminate Hin | by injection Hin as <- <-] |]);
  by apply elem_of_nil in Hin.

Ltac save_write_case :=
  intros [= <- <- <-];
  split; [reflexivity |]; split; [reflexivity |]; split; [reflexivity |];
  split; [reflexivity |];
  split;
  [ intros p Hp Htmp; simpl;
    rewrite ?lookup_insert_ne, ?lookup_delete_ne, ?lookup_insert_ne by done; done |];
  new_events;
  split;
  [ repeat first
      [ apply Forall_nil_2
      | apply Forall_cons_2; [first [by left | right; by do 2 eexists] |] ] |];
  split; [intros pt0 key0 Hin; event_cases Hin | intros P0 salt0 Hin; event_cases Hin].

Lemma Save_write_effects (P : string) (w w' : World) (s s' : Store)
    (oe : option goerr) :
  Save_write P w s = (oe, s', w') →
  satellitesData s' = satellitesData s
  ∧ dataPath s' = dataPath s
  ∧ passphraseProvided s' = passphraseProvided s
  ∧ tty w' = tty w
  ∧ (∀ p, p ≠ dataPath s → p ≠ dataPath s +:+ ".tmp" → files w' !! p = files w !! p)
  ∧ Forall (λ ev, is_read_only ev = false ∨ ∃ P salt, ev = EvDeriveKey P salt)
           (events_since w w')
  ∧ (∀ pt key, EvEncrypt pt key ∈ events_since w w' → sessionKey s' = key)
  ∧ (∀ P' salt, EvDeriveKey P' salt ∈ events_since w w' → P' = P).
Proof.
  unfold Save_write.
  destruct (json_MarshalIndent _) as [pt | ?]; [| save_write_case].
  destruct (rand_ReadFull _ w) as [[salt | ?] w1] eqn:H1;
    apply rand_ReadFull_world in H1 as [r1 ->]; [| save_write_case].
  unfold crypto_DeriveKeyWithArgon2id.
  destruct (DeriveKeyWithArgon2id P salt) as [key | ?]; [| save_write_case].
  destruct (crypto_Encrypt pt key _) as [[nct | ?] w3] eqn:H3;
    apply crypto_Encrypt_world in H3 as [r3 ->]; [| save_write_case].
  unfold ioutil_WriteFile. simpl (write_fault _).
  destruct (write_fault w); [save_write_case |].
  unfold os_Rename. simpl (rename_fault _).
  destruct (rename_fault w).
  - unfold os_Remove. simpl (remove_fault _). simpl (files _).
    rewrite lookup_insert_eq. destruct (remove_fault w); save_write_case.
  - simpl (files _). rewrite lookup_insert_eq. save_write_case.
Qed.

Lemma Save_store_kept (w w' : World) (s s' : Store) (oe : option goerr) :
  Save w s = (oe, s', w') →
  satellitesData s' = satellitesData s ∧ dataPath s' = dataPath s.
Proof.
  unfold Save.
  destruct (Save_require w s) as [[e1 s1] w1] eqn:Hreq.
  apply Save_require_world in Hreq as (_ & Hd & Hpath & _).
  destruct e1; [by intros [= <- <- <-] |].
  destruct (Save_passphrase _) as [[P | ?] w2]; [| by intros [= <- <- <-]].
  intros E. apply Save_write_effects in E as (Hd' & Hp' & _).
  by rewrite Hd', Hp'.
Qed.

(** X10. Whatever it returns, [Save] leaves the collection and the data
    path as they were, changes no file other than the data file and its
    ".tmp" sibling, and makes no stat, no read and no decryption: it never
    looks at what the data file held. *)
Theorem Save_confined (w w' : World) (s s' : Store) (oe : option goerr) :
  Save w s = (oe, s', w') →
  satellitesData s' = satellitesData s
  ∧ dataPath s' = dataPath s
  ∧ (∀ p, p ≠ dataPath s → p ≠ dataPath s +:+ ".tmp" → files w' !! p = files w !! p)
  ∧ Forall (λ ev, is_read_only ev = false ∨ ∃ P salt, ev = EvDeriveKey P salt)
           (events_since w w').
Proof.
  unfold Save.
  destruct (Save_require w s) as [[e1 s1] w1] eqn:Hreq.
  apply Save_require_world in Hreq as ([t1 ->] & Hd & Hpath & _).
  destruct e1.
  { intros [= <- <- <-]. split_and!; try done. new_events. apply Forall_nil_2. }
  destruct (Save_passphrase _) as [[P | ?] w2] eqn:Hpass;
    apply Save_passphrase_frame in Hpass as [t2 ->].
  2: { intros [= <- <- <-]. split_and!; try done. new_events. apply Forall_nil_2. }
  intros E. apply Save_write_effects in E as (Hd' & Hp' & _ & _ & Hf & Hev & _).
  rewrite Hd', Hp', Hd, Hpath. rewrite Hpath in Hf.
  by rewrite (events_since_trace w (with_tty t2 (with_tty t1 w))).
Qed.

(** X11. As soon as [Save] has called the cipher, the key it derived is the
    session key and [passphraseProvided] is set, whether the save then goes
    through or fails at the encryption, the write or the rename. *)
Theorem Save_key_before_commit (w w' : World) (s s' : Store) (oe : option goerr)
    (plaintext key : list byte) :
  Save w s = (oe, s', w') →
  EvEncrypt plaintext key ∈ events_since w w' →
  sessionKey s' = key ∧ passphraseProvided s' = true.
Proof.
  unfold Save.
  destruct (Save_require w s) as [[e1 s1] w1] eqn:Hreq.
  destruct e1 as [e1 |].
  { apply Save_require_world in Hreq as ([t1 ->] & _).
    intros [= <- <- <-]. new_events. intros Hin. by apply elem_of_nil in Hin. }
  apply Save_require_frame in Hreq as ([t1 ->] & ->).
  destruct (Save_passphrase _) as [[P | ?] w2] eqn:Hpass;
    apply Save_passphrase_frame in Hpass as [t2 ->].
  2: { intros [= <- <- <-]. new_events. intros Hin. by apply elem_of_nil in Hin. }
  intros E. apply Save_write_effects in E as (_ & _ & Hp & _ & _ & _ & Hk & _).
  rewrite (events_since_trace w (with_tty t2 (with_tty t1 w))) by done.
  intros Hin. split; [by eapply Hk | by rewrite Hp].
Qed.

Lemma getPassphrase_single (w : World) (p : string) (rest : list (result string)) :
  env_passphrase w = "" → stdin_terminal w = true → tty w = Ok p :: rest →
  getPassphrase false w = (Ok p, with_tty rest w).
Proof.
  intros He Ht Htty. unfold getPassphrase, term_ReadPassword.
  by rewrite He, Ht, Htty.
Qed.

Lemma getPassphrase_confirmed (w : World) (p : string) (rest : list (result string)) :
  env_passphrase w = "" → stdin_terminal w = true → tty w = Ok p :: Ok p :: rest →
  p ≠ "" →
  getPassphrase true w = (Ok p, with_tty rest w).
Proof.
  intros He Ht Htty Hp. unfold getPassphrase, term_ReadPassword.
  rewrite He, Ht, Htty. simpl.
  destruct (String.eqb_spec p "") as [| _]; [done |]. simpl.
  by rewrite String.eqb_refl.
Qed.

(** X12. When a locked store is saved with no passphrase in the environment,
    [Save] reads three lines from the terminal: the passphrase, its
    confirmation, and one more; every key it derives is derived from the
    third line, and the confirmed passphrase is used for nothing. *)
Theorem Save_third_line (w w' : World) (s s' : Store) (oe : option goerr)
    (p1 p3 : string) (rest : list (result string)) :
  env_passphrase w = "" →
  stdin_terminal w = true →
  passphraseProvided s = false →
  tty w = Ok p1 :: Ok p1 :: Ok p3 :: rest →
  p1 ≠ "" → p3 ≠ "" →
  Save w s = (oe, s', w') →
  tty w' = rest
  ∧ ∀ P salt, EvDeriveKey P salt ∈ events_since w w' → P = p3.
Proof.
  intros He Ht Hp Htty H1 H3. unfold Save, Save_require, Save_passphrase.
  rewrite Hp. simpl negb.
  rewrite (getPassphrase_confirmed w p1 (Ok p3 :: rest)) by done.
  destruct (String.eqb_spec p1 "") as [| _]; [done |].
  simpl (env_passphrase _). rewrite He. simpl.
  rewrite (getPassphrase_single (with_tty (Ok p3 :: rest) w) p3 rest) by done.
  destruct (String.eqb_spec p3 "") as [| _]; [done |].
  intros E. apply Save_write_effects in E as (_ & _ & _ & Htt & _ & _ & _ & Hk).
  split; [done |].
  by rewrite (events_since_trace w (with_tty rest (with_tty (Ok p3 :: rest) w))).
Qed.

Lemma Save_success_flag (w w' : World) (s s' : Store) :
  Save w s = (None, s', w') → passphraseProvided s' = true ∧ dataPath s' = dataPath s.
Proof.
  unfold Save.
  destruct (Save_require w s) as [[[e1 |] s1] w1] eqn:Hreq; [done |].
  apply Save_require_frame in Hreq as ([t1 ->] & ->).
  destruct (Save_passphrase _) as [[P | ?] w2] eqn:Hpass; [| done].
  intros E. apply Save_write_effects in E as (_ & Hp & Hf & _).
  by rewrite Hp, Hf.
Qed.

(** X13. After a [Save] that succeeds, the temporary file is gone, the data
    file exists, [passphraseProvided] is set, and [IsUnlocked] holds exactly
    when the derived key is not empty. *)
Theorem Save_success_state (w w' : World) (s s' : Store) :
  Save w s = (None, s', w') →
  files w' !! (dataPath s +:+ ".tmp") = None
  ∧ is_Some (files w' !! dataPath s)
  ∧ passphraseProvided s' = true
  ∧ (IsUnlocked s' = true ↔ sessionKey s' ≠ []).
Proof.
  unfold Save.
  destruct (Save_require w s) as [[[e1 |] s1] w1] eqn:Hreq; [done |].
  apply Save_require_frame in Hreq as ([t1 ->] & ->).
  destruct (Save_passphrase _) as [[P | ?] w2] eqn:Hpass; [| done].
  intros E. apply Save_write_ok in E
    as (pt & key & sealed & _ & _ & _ & _ & _ & _ & -> & Hf & _).
  simpl in Hf. rewrite Hf. split_and!.
  - rewrite lookup_insert_ne by (symmetry; apply temp_path_fresh).
    apply lookup_delete_eq.
  - rewrite lookup_insert_eq. by eexists.
  - done.
  - unfold IsUnlocked. simpl. destruct key; simpl; split; done.
Qed.

End MoreProperties.

(** ** Properties of the session operations and of the commands *)

Lemma with_data_self (s : Store) : with_data (satellitesData s) s = s.
Proof. by destruct s. Qed.

Section CommandProperties.
Context `{ext : Externals} `{cext : CmdExternals}.

(** X14. On an unlocked store, adding a record under a name that is not
    bound and deleting that name again gives back the store as it was. *)
Theorem add_then_delete (s : Store) (sat : Satellite) :
  IsUnlocked s = true →
  satellitesData s !! Name sat = None →
  ∃ s1, AddSatellite sat s = (None, s1)
    ∧ DeleteSatellite (Name sat) s1 = (None, s).
Proof.
  intros Hu Hn. unfold AddSatellite, DeleteSatellite. rewrite Hu. simpl.
  eexists. split; [reflexivity |].
  change (IsUnlocked (with_data ?m s)) with (IsUnlocked s). rewrite Hu. simpl.
  rewrite lookup_insert_eq. unfold with_data. simpl.
  rewrite delete_insert_id by done. by destruct s.
Qed.

(** X15. If every record is stored under its own name, this is still so
    after [AddSatellite] and after [DeleteSatellite], whatever they return,
    and the records [listCmd] is about to print have pairwise distinct
    names. *)
Theorem names_are_keys_kept (s : Store) (sat : Satellite) (name : string) :
  names_are_keys (satellitesData s) →
  names_are_keys (satellitesData (snd (AddSatellite sat s)))
  ∧ names_are_keys (satellitesData (snd (DeleteSatellite name s)))
  ∧ ∀ l, listCmd_select s = Ok l → NoDup (Name <$> l).
Proof.
  intros Hinv. split_and!.
  - unfold AddSatellite. destruct (IsUnlocked s); simpl; [| done].
    intros k v [[<- <-] | [_ Hk]]%lookup_insert_Some; [done | by apply Hinv].
  - unfold DeleteSatellite. destruct (IsUnlocked s); simpl; [| done].
    destruct (satellitesData s !! name); simpl; [| done].
    intros k v [_ Hk]%lookup_delete_Some. by apply Hinv.
  - intros l. unfold listCmd_select, GetSatellites.
    destruct (IsUnlocked s); simpl; [| done]. rewrite copy_loop. intros [= <-].
    rewrite <- list_fmap_compose.
    rewrite (list_fmap_ext (Name ∘ snd) fst (map_to_list (satellitesData s))).
    + apply NoDup_fst_map_to_list.
    + intros i [k v] Hi. simpl. apply Hinv.
      apply elem_of_map_to_list. by eapply list_elem_of_lookup_2.
Qed.

(** X16. On a machine with no data file, whatever the passphrase provider
    does, the start-up hook returns no error and leaves a store that each of
    the data commands refuses with the "datastore not accessible" error: the
    add command neither changes the store nor writes anything. *)
Theorem new_store_commands_refused (w w' : World) (s s' : Store) (oe : option goerr)
    (exePath today name operator status orbitType : string) (q : QueryFlags) :
  executable w = Ok exePath →
  files w !! filepath_Join (filepath_Dir exePath) (DataFileName config) = None →
  PersistentPreRunE w s = (oe, s', w') →
  oe = None
  ∧ files w' = files w
  ∧ addCmd today name operator status orbitType w' s' = (Some errNotAccessible, s', w')
  ∧ queryCmd_select q s' = Err errNotAccessible
  ∧ listCmd_select s' = Err errNotAccessible.
Proof.
  intros Hx Hf. unfold PersistentPreRunE, Init. rewrite Hx.
  destruct (load_no_file w (with_path _ s) Hf) as (s1 & w1 & Hl & Hu & Hfs).
  rewrite Hl. intros [= <- <- <-].
  unfold addCmd, queryCmd_select, listCmd_select. by rewrite Hu.
Qed.

(** X17. When the add command returns no error, the store was unlocked, the
    name is not empty, [Save] has succeeded on the collection in which that
    name is bound to a record with the given operator, status and orbit
    type, today's launch date and every other field zero, whatever record
    the name was bound to before. *)
Theorem addCmd_success_inv (w w' : World) (s s' : Store)
    (today name operator status orbitType : string) :
  addCmd today name operator status orbitType w s = (None, s', w') →
  let newSat :=
    {| Name := name; OrbitType := orbitType; Altitude := 0; Eccentricity := 0;
       Inclination := 0; PowerSystem := ""; Communication := ""; Size := 0;
       Weight := 0; Constellation := false; RemoteSensing := "";
       LaunchDate := today; Operator := operator; MissionObjective := "";
       Status := status |} in
  IsUnlocked s = true
  ∧ name ≠ ""
  ∧ satellitesData s' = <[name := newSat]> (satellitesData s)
  ∧ Save w (with_data (<[name := newSat]> (satellitesData s)) s) = (None, s', w').
Proof.
  unfold addCmd, AddSatellite.
  destruct (IsUnlocked s) eqn:Hu; simpl; [| done].
  destruct (String.eqb_spec name "") as [| Hn]; [done |]. simpl.
  destruct (Save w _) as [[[e |] s2] w2] eqn:HS; [done |].
  intros [= <- <-]. split_and!; try done.
  by destruct (Save_store_kept _ _ _ _ _ HS) as [-> _].
Qed.

(** X18. When the add command fails on an unlocked store and a non-empty
    name, it is [Save] that failed: the error wraps the error of [Save], and
    the new record stays in the collection in memory. *)
Theorem addCmd_failure_inv (w w' : World) (s s' : Store) (e : goerr)
    (today name operator status orbitType : string) :
  IsUnlocked s = true →
  name ≠ "" →
  addCmd today name operator status orbitType w s = (Some e, s', w') →
  ∃ err newSat,
    e = errSaveRecord name err
    ∧ Name newSat = name ∧ Operator newSat = operator ∧ Status newSat = status
    ∧ OrbitType newSat = orbitType ∧ LaunchDate newSat = today
    ∧ Save w (with_data (<[name := newSat]> (satellitesData s)) s) = (Some err, s', w')
    ∧ satellitesData s' !! name = Some newSat.
Proof.
  intros Hu Hn. unfold addCmd, AddSatellite. rewrite Hu. simpl.
  destruct (String.eqb_spec name "") as [| _]; [done |]. simpl.
  destruct (Save w _) as [[[err |] s2] w2] eqn:HS; [| done].
  intros [= <- <- <-]. exists err.
  eexists {| Name := name; OrbitType := orbitType; Altitude := 0; Eccentricity := 0;
             Inclination := 0; PowerSystem := ""; Communication := ""; Size := 0;
             Weight := 0; Constellation := false; RemoteSensing := "";
             LaunchDate := today; Operator := operator; MissionObjective := "";
             Status := status |}.
  split_and!; try reflexivity; [exact HS |].
  destruct (Save_store_kept _ _ _ _ _ HS) as [-> _]. simpl.
  apply lookup_insert_eq.
Qed.

(** A file written by a successful [Save] loads back, in a process that
    finds the same passphrase in its environment. *)
Lemma Save_then_load (w w' : World) (s s' s0 : Store) :
  Save w s = (None, s', w') →
  env_passphrase w ≠ "" →
  (∀ pt, json_MarshalIndent (satellitesData s) = Ok pt →
         json_Unmarshal pt = Ok (satellitesData s)) →
  (∀ key nonce pt sealed,
     gcm_seal key nonce pt = Ok sealed → gcm_open key nonce sealed = Ok pt) →
  dataPath s0 = dataPath s →
  ∃ s'' w'', load w' s0 = (None, s'', w'')
    ∧ satellitesData s'' = satellitesData s
    ∧ passphraseProvided s'' = true
    ∧ sessionKey s'' = sessionKey s'.
Proof.
  intros HS Hne Hjson Hopen Hpath. unfold Save in HS.
  rewrite Save_require_env, Save_passphrase_env in HS by done.
  apply Save_write_ok in HS
    as (pt & key & sealed & Hm & Hlen & Hkey & Hsl & _ & _ & -> & Hf & _ & _ & He & _).
  simpl in Hm, Hkey, Hsl, Hf.
  destruct (load_existing_ok w' s0
              (take (Argon2SaltSize config) (rand_reader w))
              (take (AESGCMNonceSize config)
                 (drop (Argon2SaltSize config) (rand_reader w)))
              sealed key pt (satellitesData s))
    as [w'' HL].
  - rewrite Hpath, Hf. apply lookup_insert_eq.
  - rewrite length_take. lia.
  - rewrite length_take, length_drop. lia.
  - by rewrite He.
  - by rewrite He.
  - by apply Hopen.
  - by apply Hjson.
  - by do 2 eexists.
Qed.

(** X19. After an add command that returned no error, with the passphrase in
    the environment, a codec that reads back what it wrote for the new
    collection and a cipher that opens what it sealed, [load] in a new
    process under the same passphrase succeeds, the collection it holds is
    the one the add command left, the added record is bound to its name, and
    the store is unlocked exactly if it is in the adding process. *)
Theorem add_then_reload (w w' : World) (s s' s0 : Store)
    (today name operator status orbitType : string) :
  addCmd today name operator status orbitType w s = (None, s', w') →
  env_passphrase w ≠ "" →
  (∀ pt, json_MarshalIndent (satellitesData s') = Ok pt →
         json_Unmarshal pt = Ok (satellitesData s')) →
  (∀ key nonce pt sealed,
     gcm_seal key nonce pt = Ok sealed → gcm_open key nonce sealed = Ok pt) →
  dataPath s0 = dataPath s →
  ∃ s'' w'' sat,
    load w' s0 = (None, s'', w'')
    ∧ satellitesData s'' = satellitesData s'
    ∧ satellitesData s'' !! name = Some sat
    ∧ Name sat = name ∧ Operator sat = operator ∧ Status sat = status
    ∧ OrbitType sat = orbitType ∧ LaunchDate sat = today
    ∧ IsUnlocked s'' = IsUnlocked s'.
Proof.
  intros Hadd Hne Hjson Hopen Hpath.
  unfold addCmd, AddSatellite in Hadd.
  destruct (IsUnlocked s) eqn:Hu; simpl in Hadd; [| done].
  destruct (String.eqb name ""); [done |]. simpl in Hadd.
  destruct (Save w _) as [[[e |] s2] w2] eqn:HS; [done |].
  injection Hadd as <- <-.
  destruct (Save_store_kept _ _ _ _ _ HS) as [Hd Hp]. simpl in Hd, Hp.
  rewrite Hd in Hjson.
  destruct (Save_then_load _ _ _ _ s0 HS Hne Hjson Hopen Hpath)
    as (s'' & w'' & HL & Hd'' & Hpp & Hk).
  simpl in Hd''. exists s'', w''. eexists. split; [exact HL |].
  rewrite Hd'', Hd. split; [done |]. split; [apply lookup_insert_eq |].
  split_and!; try reflexivity.
  assert (Hs2 : passphraseProvided s2 = true).
  { destruct (Save_success_flag _ _ _ _ HS) as [-> _]. done. }
  unfold IsUnlocked. by rewrite Hpp, Hk, Hs2.
Qed.

Lemma query_loop_ok (q : QueryFlags) (a b : Z) (entries : list (string * Satellite))
    (acc l : list Satellite) :
  query_loop q a b entries acc = Ok l →
  ∀ sat, sat ∈ l
         ↔ sat ∈ acc ∨ ∃ k, (k, sat) ∈ entries ∧ query_matches q a b sat = Ok true.
Proof.
  revert acc. induction entries as [|[k0 sat0] entries IH]; intros acc; simpl.
  - intros [= <-] sat. split; [by left |]. intros [? | (k & Hk & _)]; [done |].
    by apply elem_of_nil in Hk.
  - destruct (query_matches q a b sat0) as [[|] | e] eqn:Hm; [| | done].
    + intros E sat. rewrite (IH _ E sat), elem_of_app, list_elem_of_singleton.
      split.
      * intros [[? | ->] | (k & Hk & ?)]; [by left | |].
        -- right. exists k0. split; [by left | done].
        -- right. exists k. split; [by right | done].
      * intros [? | (k & Hk & Hs)]; [by left; left |].
        apply elem_of_cons in Hk as [[= -> ->] | Hk]; [by left; right |].
        right. by exists k.
    + intros E sat. rewrite (IH _ E sat). split.
      * intros [? | (k & Hk & ?)]; [by left |]. right. exists k. split; [by right | done].
      * intros [? | (k & Hk & Hs)]; [by left |].
        apply elem_of_cons in Hk as [[= -> ->] | Hk]; [congruence |].
        right. by exists k.
Qed.

(** X20. When the query command gets as far as printing, the store was
    unlocked, the flags passed the checks, and the records it selected are
    exactly the records of the collection that pass the loop body; nothing
    else is selected and no passing record is left out. *)
Theorem query_selects (q : QueryFlags) (s : Store) (l : list Satellite) :
  queryCmd_select q s = Ok l →
  IsUnlocked s = true
  ∧ ∃ a b, query_validate q = Ok (a, b)
      ∧ ∀ sat, sat ∈ l
               ↔ ∃ k, satellitesData s !! k = Some sat
                      ∧ query_matches q a b sat = Ok true.
Proof.
  unfold queryCmd_select, GetSatellites.
  destruct (IsUnlocked s); simpl; [| done]. rewrite copy_loop.
  destruct (query_validate q) as [[a b] | ?]; [| done].
  intros E. split; [done |]. exists a, b. split; [done |].
  intros sat. rewrite (query_loop_ok _ _ _ _ _ _ E sat). split.
  - intros [Hn | (k & Hk & Hm)]; [by apply elem_of_nil in Hn |].
    exists k. by rewrite <- elem_of_map_to_list.
  - intros (k & Hk & Hm). right. exists k. by rewrite elem_of_map_to_list.
Qed.

Lemma query_loop_all (q : QueryFlags) (a b : Z) (entries : list (string * Satellite))
    (acc : list Satellite) :
  (∀ sat, query_matches q a b sat = Ok true) →
  query_loop q a b entries acc = Ok (acc ++ (snd <$> entries)).
Proof.
  intros Hall. revert acc. induction entries as [|[k sat] entries IH]; intros acc; simpl.
  - by rewrite app_nil_r.
  - rewrite Hall, IH. by rewrite <- app_assoc.
Qed.

(** X21. With no filter flag given (every string flag empty, both altitude
    bounds zero), the query command selects what the list command lists,
    and refuses what it refuses. *)
Theorem query_without_flags (q : QueryFlags) (s : Store) :
  operatorFilter q = "" → statusFilter q = "" → orbitTypeFilter q = "" →
  launchAfterStr q = "" → launchBeforeStr q = "" → constellationStr q = "" →
  minAltitude q = 0%float → maxAltitude q = 0%float →
  queryCmd_select q s = listCmd_select s.
Proof.
  intros Ho Hs Hot Ha Hb Hc Hmin Hmax.
  unfold queryCmd_select, listCmd_select.
  destruct (IsUnlocked s); simpl; [| done].
  destruct (GetSatellites s) as [satsMap | ?]; [| done].
  unfold query_validate. rewrite Ha, Hb, Hmin, Hmax. simpl.
  apply (query_loop_all q 0 0 _ []). intros sat.
  unfold query_matches, query_matches_text, query_matches_altitude.
  by rewrite Ho, Hs, Hot, Ha, Hb, Hc, Hmin, Hmax.
Qed.

Lemma query_loop_bad_constellation (q : QueryFlags) (a b : Z)
    (entries : list (string * Satellite)) (acc : list Satellite) :
  constellationStr q ≠ "" →
  strconv_ParseBool (constellationStr q) = None →
  query_loop q a b entries acc
  = if existsb (λ kv, query_matches_text q a b (snd kv)) entries
    then Err (errConstellation (constellationStr q))
    else Ok acc.
Proof.
  intros Hne Hbad. revert acc.
  induction entries as [|[k sat] entries IH]; intros acc; simpl; [done |].
  unfold query_matches. rewrite Hbad.
  destruct (String.eqb_spec (constellationStr q) ""); [done |].
  destruct (query_matches_text q a b sat); simpl; [done | apply IH].
Qed.

(** X22. A value of --constellation that [strconv.ParseBool] rejects is
    reported as an error only if some record of the collection passes the
    operator, status, orbit type and launch date filters; if none does, the
    query command reports no error and selects nothing. *)
Theorem query_bad_constellation (q : QueryFlags) (s : Store) (a b : Z) :
  IsUnlocked s = true →
  query_validate q = Ok (a, b) →
  constellationStr q ≠ "" →
  strconv_ParseBool (constellationStr q) = None →
  ((∃ k sat, satellitesData s !! k = Some sat ∧ query_matches_text q a b sat = true) →
     queryCmd_select q s = Err (errConstellation (constellationStr q)))
  ∧ ((∀ k sat, satellitesData s !! k = Some sat → query_matches_text q a b sat = false) →
     queryCmd_select q s = Ok []).
Proof.
  intros Hu Hv Hne Hbad. unfold queryCmd_select, GetSatellites.
  rewrite Hu. simpl. rewrite copy_loop, Hv.
  rewrite query_loop_bad_constellation by done.
  destruct (existsb _ _) eqn:Hex; split; try done.
  - intros Hnone. exfalso.
    apply existsb_exists in Hex as ([k sat] & Hin & Hm).
    apply list_elem_of_In, elem_of_map_to_list in Hin.
    simpl in Hm. by rewrite (Hnone _ _ Hin) in Hm.
  - intros (k & sat & Hk & Hm). exfalso.
    apply not_true_iff_false in Hex. apply Hex.
    apply existsb_exists. exists (k, sat). split; [| done].
    apply list_elem_of_In. by apply elem_of_map_to_list.
Qed.

(** X23. Every record the query command selects passes every filter that
    was given: it matches the operator, status and orbit type under
    [strings.EqualFold]; if a launch date flag was given its launch date
    parses and lies within the bounds given; its constellation flag is the
    one asked for; and its altitude is neither below a positive minimum nor
    above a positive maximum. *)
Theorem query_selection_sound (q : QueryFlags) (s : Store) (l : list Satellite)
    (sat : Satellite) :
  queryCmd_select q s = Ok l →
  sat ∈ l →
  (operatorFilter q ≠ "" → strings_EqualFold (Operator sat) (operatorFilter q) = true)
  ∧ (statusFilter q ≠ "" → strings_EqualFold (Status sat) (statusFilter q) = true)
  ∧ (orbitTypeFilter q ≠ "" →
       strings_EqualFold (OrbitType sat) (orbitTypeFilter q) = true)
  ∧ (launchAfterStr q ≠ "" ∨ launchBeforeStr q ≠ "" →
       ∃ d a b, time_Parse (LaunchDate sat) = Ok d ∧ query_validate q = Ok (a, b)
                ∧ (a ≠ 0 → a ≤ d)%Z ∧ (b ≠ 0 → d ≤ b)%Z)
  ∧ (constellationStr q ≠ "" →
       strconv_ParseBool (constellationStr q) = Some (Constellation sat))
  ∧ ((0 <? minAltitude q)%float = true → (Altitude sat <? minAltitude q)%float = false)
  ∧ ((0 <? maxAltitude q)%float = true → (maxAltitude q <? Altitude sat)%float = false).
Proof.
  unfold queryCmd_select, GetSatellites.
  destruct (IsUnlocked s); simpl; [| done]. rewrite copy_loop.
  destruct (query_validate q) as [[a b] | ?] eqn:Hv; [| done].
  intros E Hin. apply (query_loop_ok _ _ _ _ _ _ E) in Hin
    as [Hn | (k & _ & Hm)]; [by apply elem_of_nil in Hn |].
  clear E. unfold query_matches in Hm.
  destruct (query_matches_text q a b sat) eqn:Ht; simpl in Hm; [| done].
  assert (Halt : query_matches_altitude q sat = true
                 ∧ (constellationStr q ≠ "" →
                    strconv_ParseBool (constellationStr q) = Some (Constellation sat))).
  { destruct (String.eqb_spec (constellationStr q) "") as [Hc | Hc]; simpl in Hm.
    - split; [congruence | done].
    - destruct (strconv_ParseBool (constellationStr q)) as [v |]; [| done].
      destruct (Bool.eqb (Constellation sat) v) eqn:Hb; simpl in Hm; [| done].
      apply Bool.eqb_prop in Hb as ->. split; [congruence | done]. }
  destruct Halt as [Halt Hcons]. clear Hm.
  unfold query_matches_text in Ht. unfold query_matches_altitude in Halt.
  split_and!.
  - intros Hne. apply String.eqb_neq in Hne. rewrite Hne in Ht. simpl in Ht.
    by destruct (strings_EqualFold (Operator sat) _).
  - intros Hne. apply String.eqb_neq in Hne. rewrite Hne in Ht. simpl in Ht.
    destruct (strings_EqualFold (Status sat) _); [done |].
    by destruct (negb _ && negb _).
  - intros Hne. apply String.eqb_neq in Hne. rewrite Hne in Ht. simpl in Ht.
    destruct (strings_EqualFold (OrbitType sat) _); [done |].
    destruct (negb _ && negb _); [done |].
    by destruct (true && negb _ && negb _).
  - intros Hd.
    assert (Hflag : negb (launchAfterStr q =? "") || negb (launchBeforeStr q =? "") = true).
    { destruct Hd as [Hd | Hd]; apply String.eqb_neq in Hd; rewrite Hd; simpl;
        [done | by rewrite orb_true_r]. }
    rewrite Hflag in Ht.
    destruct (negb _ && negb _); [done |].
    destruct (true && negb _ && negb _); [done |].
    destruct (true && negb _ && negb _); [done |]. simpl in Ht.
    destruct (time_Parse (LaunchDate sat)) as [d | ?]; [| done].
    exists d, a, b. split; [done |]. split; [done |].
    destruct (a =? 0)%Z eqn:Ha0; destruct (d <? a)%Z eqn:Hda; simpl in Ht; try done;
      destruct (b =? 0)%Z eqn:Hb0; destruct (b <? d)%Z eqn:Hbd; simpl in Ht; try done;
      lia.
  - done.
  - intros Hmin. rewrite Hmin in Halt. simpl in Halt.
    by destruct (Altitude sat <? minAltitude q)%float.
  - intros Hmax. rewrite Hmax in Halt.
    destruct ((0 <? minAltitude q)%float && (Altitude sat <? minAltitude q)%float);
      [done |].
    simpl in Halt. by destruct (maxAltitude q <? Altitude sat)%float.
Qed.

End CommandProperties.

(** ** The further properties on the sample instance *)

#[local] Existing Instance Sample.externals.
#[local] Existing Instance Sample.cmd_externals.

Lemma getPassphrase_errors_mention_passphrase_witness :
  Contains (emsg errNoTerminal) "passphrase" = true
  ∧ os_IsNotExist errNoTerminal = false.
Proof.
  apply (getPassphrase_errors_mention_passphrase true Sample.world_headless
           Sample.world_headless errNoTerminal).
  reflexivity.
Defined.

Lemma getPassphrase_ok_inv_witness :
  let w := Sample.world_prompt [Ok "pw"; Ok "pw"] in
  (env_passphrase w ≠ "" ∧ "pw" = env_passphrase w ∧ with_tty [] w = w)
  ∨ (env_passphrase w = "" ∧ stdin_terminal w = true
     ∧ ∃ rest, tty w = Ok "pw" :: rest
        ∧ if true && negb (String.eqb "pw" "")
          then ∃ rest', rest = Ok "pw" :: rest' ∧ with_tty [] w = with_tty rest' w
          else with_tty [] w = with_tty rest w).
Proof.
  intros w. apply (getPassphrase_ok_inv true w (with_tty [] w) "pw"). reflexivity.
Defined.

Lemma load_reads_only_witness :
  let s := with_path Sample.path Sample.fresh in
  let r := load Sample.world_garbled s in
  files (snd r) = files Sample.world_garbled
  ∧ rand_reader (snd r) = rand_reader Sample.world_garbled
  ∧ dataPath (snd (fst r)) = dataPath s
  ∧ Forall (λ ev, is_read_only ev = true) (events_since Sample.world_garbled (snd r)).
Proof.
  intros s r.
  assert (E : load Sample.world_garbled s = (fst (fst r), snd (fst r), snd r))
    by (vm_compute; reflexivity).
  exact (load_reads_only _ _ _ _ _ E).
Defined.

Lemma load_missing_file_witness :
  ∃ s' w', load Sample.world0 (with_path Sample.path Sample.fresh) = (None, s', w')
    ∧ satellitesData s' = ∅ ∧ sessionKey s' = [] ∧ IsUnlocked s' = false
    ∧ events_since Sample.world0 w' = [EvStat Sample.path].
Proof.
  apply (load_missing_file Sample.world0 (with_path Sample.path Sample.fresh)).
  reflexivity.
Defined.

Lemma load_unlocked_inv_witness :
  let w := snd (Save Sample.world0 Sample.unlocked1) in
  let s := with_path Sample.path Sample.fresh in
  let r := load w s in
  fst (fst r) = None
  ∧ ∃ (P : string) (data key plaintext : list byte),
      P ≠ ""
      ∧ files w !! dataPath s = Some (Ok data)
      ∧ (Argon2SaltSize config + AESGCMNonceSize config ≤ length data)%nat
      ∧ DeriveKeyWithArgon2id P (take (Argon2SaltSize config) data) = Ok key
      ∧ gcm_open key
          (take (AESGCMNonceSize config) (drop (Argon2SaltSize config) data))
          (drop (AESGCMNonceSize config) (drop (Argon2SaltSize config) data))
        = Ok plaintext
      ∧ json_Unmarshal plaintext = Ok (satellitesData (snd (fst r)))
      ∧ sessionKey (snd (fst r)) = key ∧ key ≠ [].
Proof.
  intros w s r.
  assert (E : load w s = (fst (fst r), snd (fst r), snd r)) by (vm_compute; reflexivity).
  assert (U : IsUnlocked (snd (fst r)) = true) by (vm_compute; reflexivity).
  exact (load_unlocked_inv _ _ _ _ _ E U).
Defined.

Lemma Init_without_passphrase_witness :
  ∃ s' w', Init Sample.world_headless Sample.fresh = (None, s', w')
    ∧ PersistentPreRunE Sample.world_headless Sample.fresh = (None, s', w')
    ∧ IsUnlocked s' = false ∧ dataPath s' = Sample.path
    ∧ satellitesData s' = satellitesData Sample.fresh.
Proof.
  refine (Init_without_passphrase Sample.world_headless Sample.fresh
            "/opt/satcli/satcli" _ _ _).
  - reflexivity.
  - by eexists.
  - intros P w1 H. vm_compute in H. discriminate H.
Defined.

Lemma hook_agrees_with_Init_witness :
  PersistentPreRunE Sample.world_short Sample.fresh = Init Sample.world_short Sample.fresh.
Proof.
  apply (hook_agrees_with_Init Sample.world_short Sample.fresh "/opt/satcli/satcli").
  reflexivity.
Defined.

Lemma Init_error_inv_witness :
  let r := Init Sample.world_short Sample.fresh in
  (∃ e0, executable Sample.world_short = Err e0
         ∧ snd (fst r) = Sample.fresh ∧ snd r = Sample.world_short)
  ∨ (∃ exePath, executable Sample.world_short = Ok exePath
      ∧ load Sample.world_short
          (with_path (filepath_Join (filepath_Dir exePath) (DataFileName config))
             Sample.fresh)
        = (Some errTooShort, snd (fst r), snd r)
      ∧ os_IsNotExist errTooShort = false
      ∧ Contains (emsg errTooShort) "passphrase" = false
      ∧ Contains (emsg errTooShort) "decrypt" = false
      ∧ IsUnlocked (snd (fst r)) = false).
Proof.
  intros r.
  assert (E : Init Sample.world_short Sample.fresh
              = (Some errTooShort, snd (fst r), snd r)) by (vm_compute; reflexivity).
  exact (Init_error_inv _ _ _ _ _ E).
Defined.

Lemma Save_without_provider_witness :
  ∃ e, Save Sample.world_headless Sample.unlocked1
       = (Some e, Sample.unlocked1, Sample.world_headless)
    ∧ Contains (emsg e) "passphrase" = true.
Proof.
  apply (Save_without_provider Sample.world_headless Sample.unlocked1); reflexivity.
Defined.

Lemma Save_confined_witness :
  let r := Save Sample.world0 Sample.unlocked1 in
  satellitesData (snd (fst r)) = satellitesData Sample.unlocked1
  ∧ dataPath (snd (fst r)) = dataPath Sample.unlocked1
  ∧ (∀ p, p ≠ dataPath Sample.unlocked1 → p ≠ dataPath Sample.unlocked1 +:+ ".tmp" →
          files (snd r) !! p = files Sample.world0 !! p)
  ∧ Forall (λ ev, is_read_only ev = false ∨ ∃ P salt, ev = EvDeriveKey P salt)
           (events_since Sample.world0 (snd r)).
Proof.
  intros r.
  assert (E : Save Sample.world0 Sample.unlocked1 = (fst (fst r), snd (fst r), snd r))
    by (vm_compute; reflexivity).
  exact (Save_confined _ _ _ _ _ E).
Defined.

Lemma Save_key_before_commit_witness :
  let w := Sample.with_rename_fault (Some Sample.errDenied) Sample.world0 in
  let r := Save w Sample.locked1 in
  sessionKey (snd (fst r))
  = Strings.String.list_byte_of_string "correct-horse" ++ Sample.salt0
  ∧ passphraseProvided (snd (fst r)) = true.
Proof.
  intros w r.
  assert (E : Save w Sample.locked1 = (fst (fst r), snd (fst r), snd r))
    by (vm_compute; reflexivity).
  refine (Save_key_before_commit _ _ _ _ _ Sample.payload1 _ E _).
  vm_compute. do 4 (apply elem_of_cons; right). apply elem_of_cons. by left.
Defined.

Lemma Save_third_line_witness :
  let w := Sample.world_prompt [Ok "first"; Ok "first"; Ok "third"] in
  let r := Save w Sample.locked1 in
  tty (snd r) = []
  ∧ ∀ P salt, EvDeriveKey P salt ∈ events_since w (snd r) → P = "third".
Proof.
  intros w r.
  assert (E : Save w Sample.locked1 = (fst (fst r), snd (fst r), snd r))
    by (vm_compute; reflexivity).
  refine (Save_third_line w _ _ _ _ "first" "third" [] _ _ _ _ _ _ E);
    first [reflexivity | discriminate].
Defined.

Lemma Save_success_state_witness :
  let r := Save Sample.world0 Sample.unlocked1 in
  files (snd r) !! (dataPath Sample.unlocked1 +:+ ".tmp") = None
  ∧ is_Some (files (snd r) !! dataPath Sample.unlocked1)
  ∧ passphraseProvided (snd (fst r)) = true
  ∧ (IsUnlocked (snd (fst r)) = true ↔ sessionKey (snd (fst r)) ≠ []).
Proof.
  intros r.
  assert (E : Save Sample.world0 Sample.unlocked1 = (None, snd (fst r), snd r))
    by (vm_compute; reflexivity).
  exact (Save_success_state _ _ _ _ E).
Defined.

Lemma add_then_delete_witness :
  let sat := {| Name := "SAT-2"; OrbitType := "GEO"; Altitude := 35786;
                Eccentricity := 0; Inclination := 0; PowerSystem := "";
                Communication := ""; Size := 0; Weight := 0; Constellation := false;
                RemoteSensing := ""; LaunchDate := "2020-02-02"; Operator := "NASA";
                MissionObjective := ""; Status := "active" |} in
  ∃ s1, AddSatellite sat Sample.unlocked1 = (None, s1)
    ∧ DeleteSatellite "SAT-2" s1 = (None, Sample.unlocked1).
Proof.
  intros sat. apply (add_then_delete Sample.unlocked1 sat); reflexivity.
Defined.

Lemma sample_names_are_keys : names_are_keys (satellitesData Sample.unlocked1).
Proof.
  intros k v H. simpl in H. by apply lookup_singleton_Some in H as [<- <-].
Qed.

Lemma names_are_keys_kept_witness :
  names_are_keys (satellitesData (snd (AddSatellite Sample.sat1 Sample.unlocked1)))
  ∧ names_are_keys (satellitesData (snd (DeleteSatellite "SAT-1" Sample.unlocked1)))
  ∧ ∀ l, listCmd_select Sample.unlocked1 = Ok l → NoDup (Name <$> l).
Proof.
  apply (names_are_keys_kept Sample.unlocked1 Sample.sat1 "SAT-1").
  apply sample_names_are_keys.
Defined.

Lemma new_store_commands_refused_witness :
  let r := PersistentPreRunE Sample.world0 Sample.fresh in
  fst (fst r) = None
  ∧ files (snd r) = files Sample.world0
  ∧ addCmd "2024-05-01" "SAT-2" "NASA" "active" "GEO" (snd r) (snd (fst r))
    = (Some errNotAccessible, snd (fst r), snd r)
  ∧ queryCmd_select Sample.no_flags (snd (fst r)) = Err errNotAccessible
  ∧ listCmd_select (snd (fst r)) = Err errNotAccessible.
Proof.
  intros r.
  assert (E : PersistentPreRunE Sample.world0 Sample.fresh
              = (fst (fst r), snd (fst r), snd r)) by (vm_compute; reflexivity).
  refine (new_store_commands_refused _ _ _ _ _ "/opt/satcli/satcli" _ _ _ _ _ _ _ _ E);
    reflexivity.
Defined.

Lemma addCmd_success_inv_witness :
  let r := addCmd "2024-05-01" "SAT-2" "NASA" "active" "GEO"
             Sample.world0 Sample.unlocked1 in
  let newSat :=
    {| Name := "SAT-2"; OrbitType := "GEO"; Altitude := 0; Eccentricity := 0;
       Inclination := 0; PowerSystem := ""; Communication := ""; Size := 0;
       Weight := 0; Constellation := false; RemoteSensing := "";
       LaunchDate := "2024-05-01"; Operator := "NASA"; MissionObjective := "";
       Status := "active" |} in
  IsUnlocked Sample.unlocked1 = true
  ∧ "SAT-2" ≠ ""
  ∧ satellitesData (snd (fst r))
    = <["SAT-2" := newSat]> (satellitesData Sample.unlocked1)
  ∧ Save Sample.world0
      (with_data (<["SAT-2" := newSat]> (satellitesData Sample.unlocked1))
         Sample.unlocked1)
    = (None, snd (fst r), snd r).
Proof.
  intros r.
  assert (E : addCmd "2024-05-01" "SAT-2" "NASA" "active" "GEO"
                Sample.world0 Sample.unlocked1 = (None, snd (fst r), snd r))
    by (vm_compute; reflexivity).
  exact (addCmd_success_inv _ _ _ _ _ _ _ _ _ E).
Defined.

Lemma addCmd_failure_inv_witness :
  let w := Sample.with_rename_fault (Some Sample.errDenied) Sample.world0 in
  let r := addCmd "2024-05-01" "SAT-2" "NASA" "active" "GEO" w Sample.unlocked1 in
  ∃ err newSat,
    errSaveRecord "SAT-2"
      (errCommit (Sample.path +:+ ".tmp") Sample.path Sample.errDenied)
    = errSaveRecord "SAT-2" err
    ∧ Name newSat = "SAT-2" ∧ Operator newSat = "NASA" ∧ Status newSat = "active"
    ∧ OrbitType newSat = "GEO" ∧ LaunchDate newSat = "2024-05-01"
    ∧ Save w (with_data (<["SAT-2" := newSat]> (satellitesData Sample.unlocked1))
                Sample.unlocked1)
      = (Some err, snd (fst r), snd r)
    ∧ satellitesData (snd (fst r)) !! "SAT-2" = Some newSat.
Proof.
  intros w r.
  assert (E : addCmd "2024-05-01" "SAT-2" "NASA" "active" "GEO" w Sample.unlocked1
              = (Some (errSaveRecord "SAT-2"
                         (errCommit (Sample.path +:+ ".tmp") Sample.path
                            Sample.errDenied)),
                 snd (fst r), snd r))
    by (vm_compute; reflexivity).
  refine (addCmd_failure_inv _ _ _ _ _ _ _ _ _ _ _ _ E); [reflexivity | discriminate].
Defined.

Lemma add_then_reload_witness :
  let r := addCmd "2024-05-01" "SAT-2" "NASA" "active" "GEO"
             Sample.world0 Sample.unlocked1 in
  ∃ s'' w'' sat,
    load (snd r) (with_path Sample.path Sample.fresh) = (None, s'', w'')
    ∧ satellitesData s'' = satellitesData (snd (fst r))
    ∧ satellitesData s'' !! "SAT-2" = Some sat
    ∧ Name sat = "SAT-2" ∧ Operator sat = "NASA" ∧ Status sat = "active"
    ∧ OrbitType sat = "GEO" ∧ LaunchDate sat = "2024-05-01"
    ∧ IsUnlocked s'' = IsUnlocked (snd (fst r)).
Proof.
  intros r.
  assert (E : addCmd "2024-05-01" "SAT-2" "NASA" "active" "GEO"
                Sample.world0 Sample.unlocked1 = (None, snd (fst r), snd r))
    by (vm_compute; reflexivity).
  refine (add_then_reload _ _ _ _ _ _ _ _ _ _ E _ _ _ _).
  - discriminate.
  - intros pt H. injection H as <-. vm_compute. reflexivity.
  - apply sample_open_seal.
  - reflexivity.
Defined.

Lemma query_selects_witness :
  IsUnlocked Sample.unlocked1 = true
  ∧ ∃ a b, query_validate Sample.flags_esa = Ok (a, b)
      ∧ ∀ sat, sat ∈ [Sample.sat1]
               ↔ ∃ k, satellitesData Sample.unlocked1 !! k = Some sat
                      ∧ query_matches Sample.flags_esa a b sat = Ok true.
Proof.
  apply (query_selects Sample.flags_esa Sample.unlocked1 [Sample.sat1]).
  vm_compute. reflexivity.
Defined.

Lemma query_without_flags_witness :
  queryCmd_select Sample.no_flags Sample.unlocked1 = listCmd_select Sample.unlocked1.
Proof.
  apply (query_without_flags Sample.no_flags Sample.unlocked1); reflexivity.
Defined.

Lemma query_bad_constellation_witness :
  ((∃ k sat, satellitesData Sample.unlocked1 !! k = Some sat
             ∧ query_matches_text Sample.flags_maybe 0 0 sat = true) →
     queryCmd_select Sample.flags_maybe Sample.unlocked1
     = Err (errConstellation "maybe"))
  ∧ ((∀ k sat, satellitesData Sample.unlocked1 !! k = Some sat →
               query_matches_text Sample.flags_maybe 0 0 sat = false) →
     queryCmd_select Sample.flags_maybe Sample.unlocked1 = Ok []).
Proof.
  apply (query_bad_constellation Sample.flags_maybe Sample.unlocked1 0 0);
    first [reflexivity | discriminate].
Defined.

Lemma query_selection_sound_witness :
  let q := Sample.flags_esa in
  let sat := Sample.sat1 in
  (operatorFilter q ≠ "" → strings_EqualFold (Operator sat) (operatorFilter q) = true)
  ∧ (statusFilter q ≠ "" → strings_EqualFold (Status sat) (statusFilter q) = true)
  ∧ (orbitTypeFilter q ≠ "" →
       strings_EqualFold (OrbitType sat) (orbitTypeFilter q) = true)
  ∧ (launchAfterStr q ≠ "" ∨ launchBeforeStr q ≠ "" →
       ∃ d a b, time_Parse (LaunchDate sat) = Ok d ∧ query_validate q = Ok (a, b)
                ∧ (a ≠ 0 → a ≤ d)%Z ∧ (b ≠ 0 → d ≤ b)%Z)
  ∧ (constellationStr q ≠ "" →
       strconv_ParseBool (constellationStr q) = Some (Constellation sat))
  ∧ ((0 <? minAltitude q)%float = true → (Altitude sat <? minAltitude q)%float = false)
  ∧ ((0 <? maxAltitude q)%float = true → (maxAltitude q <? Altitude sat)%float = false).
Proof.
  intros q sat.
  apply (query_selection_sound q Sample.unlocked1 [sat] sat).
  - vm_compute. reflexivity.
  - apply elem_of_cons. by left.
Defined.
